(** * libmonzo: the OAuth callback server and the authentication handshake

    A shallow embedding of [libmonzo/utilities.py] and of the parts of
    [libmonzo/monzo.py] that drive it, followed by the properties
    established about them.

    Conventions.
    - A Python [str] is a [string]; a [dict] used as a map is a [gmap];
      a [dict] literal sent as a request body keeps its insertion order
      and is an association list.
    - A Python [int] is a [Z].
    - A call that may raise returns a [PyResult]; a call that may also
      wait for ever on its environment returns an [Outcome].
    - Entropy, the network and the threads that touch the server while
      [wait_for_call] runs are explicit arguments. *)

From Stdlib Require Import ZArith Lia Ascii String List Bool.
From stdpp Require Import base tactics option list gmap strings pretty.

Open Scope Z_scope.
Open Scope string_scope.
Open Scope list_scope.

(** ** Exceptions *)

(** The classes of [libmonzo/exceptions.py]. *)
Inductive MonzoErrorClass : Type :=
  | MonzoAPIError
  | MonzoBadRequestError
  | MonzoUnauthorizedError
  | MonzoForbiddenError
  | MonzoNotFoundError
  | MonzoMethodNotAllowedError
  | MonzoNotAcceptableError
  | MonzoTooManyRequestsError
  | MonzoInternalServerError
  | MonzoGatewayTimeoutError.

(** What the modelled code can raise: a libmonzo error, a bare
    [Exception], the [KeyError] of a failed subscript, the
    [AttributeError] of an attribute read before it was assigned, the
    [ValueError] of [urlparse], and whatever a collaborator raised. *)
Inductive PyExc : Type :=
  | MonzoError (cls : MonzoErrorClass) (message : string)
  | Exception (message : string)
  | KeyError (key : string)
  | AttributeError (name : string)
  | ValueError (message : string)
  | OtherError (description : string).

Inductive PyResult (A : Type) : Type :=
  | Ok (value : A)
  | Raise (exc : PyExc).
Arguments Ok {A} value.
Arguments Raise {A} exc.

Inductive Outcome (A : Type) : Type :=
  | Returned (value : A)
  | Raised (exc : PyExc)
  | Blocked.
Arguments Returned {A} value.
Arguments Raised {A} exc.
Arguments Blocked {A}.

(** ** utilities.py: random strings *)

Definition _SECRETS_ALPHABET : string :=
  "ABCDEFGHIJKLMNPQRSTUVWXYZabcdefghjkmnpqrstuvwxyz23456789".

(** The system entropy read by [secrets]: [draws k] is the [k]-th raw
    value the operating system hands out and [used] counts the values
    consumed so far. *)
Record Rng : Type := mkRng { draws : nat -> nat; used : nat }.

(** [secrets.choice(seq)] is [seq[randbelow(len(seq))]]; the raw draw
    is reduced into range.  On an empty sequence Python raises
    [IndexError]; the only sequence passed here is the alphabet. *)
Definition secrets_choice (seq : list ascii) (raw : nat) : ascii :=
  nth (raw mod List.length seq)%nat seq "000"%char.

Fixpoint random_chars (count : nat) (g : Rng) : list ascii * Rng :=
  match count with
  | O => ([], g)
  | S count' =>
      let c := secrets_choice (list_ascii_of_string _SECRETS_ALPHABET)
                              (draws g (used g)) in
      let '(cs, g') := random_chars count' (mkRng (draws g) (S (used g))) in
      (c :: cs, g')
  end.

(** [''.join([secrets.choice(_SECRETS_ALPHABET) for _ in range(0, length)])];
    [range(0, length)] is empty for a negative [length]. *)
Definition random_string (length : Z) (g : Rng) : string * Rng :=
  let '(cs, g') := random_chars (Z.to_nat length) g in
  (string_of_list_ascii cs, g').

(** ** utilities.py: the callback server *)

(** The attributes of an [OAuthServer] that the code reads and writes.
    [__init__] assigns [_path]; [handler_callback] assigns [path], an
    attribute that does not exist before ([None] here). *)
Record OAuthServer : Type := mkOAuthServer {
  port : Z;
  _cancelled : bool;
  _completed : bool;
  _path : option string;
  path : option string
}.

Definition OAuthServer_init (port : Z) : OAuthServer :=
  {| port := port; _cancelled := false; _completed := false;
     _path := None; path := None |}.

Definition handler_callback (p : string) (self : OAuthServer) : OAuthServer :=
  {| port := port self; _cancelled := _cancelled self; _completed := true;
     _path := _path self; path := Some p |}.

Definition stop (self : OAuthServer) : OAuthServer :=
  {| port := port self; _cancelled := true; _completed := _completed self;
     _path := _path self; path := path self |}.

(** A call made on the server by another thread.  Every method body
    runs between [lock.acquire()] and [lock.release()], so calls of
    different threads are serialised and each one is a step. *)
Inductive Op : Type :=
  | CallHandler (p : string)
  | CallStop.

Definition apply_op (o : Op) (self : OAuthServer) : OAuthServer :=
  match o with
  | CallHandler p => handler_callback p self
  | CallStop => stop self
  end.

Definition run_ops (ops : list Op) (self : OAuthServer) : OAuthServer :=
  foldl (fun s o => apply_op o s) self ops.

(** What happens while [wait_for_call] is inside [handle_request()],
    where it holds no lock: another thread calls a method, or
    [handle_request()] returns, either after serving a request (the
    request handler calls [handler_callback] with the request path) or
    without having called the handler (the 0.2 s timeout elapsed). *)
Inductive Event : Type :=
  | Other (o : Op)
  | Request (p : string)
  | Idle.

(** The test at the head of the [while True] loop. *)
Definition loop_breaks (self : OAuthServer) : bool :=
  if _completed self then true else if _cancelled self then true else false.

(** One [handle_request()] followed by the rest of the loop: events are
    consumed until [handle_request()] returns, the head of the loop is
    evaluated, and the loop either breaks or calls [handle_request()]
    again.  [(true, s)] is a loop left in state [s]; [(false, s)] is a
    loop still waiting when the schedule ends. *)
Fixpoint serve (sched : list Event) (self : OAuthServer) : bool * OAuthServer :=
  match sched with
  | [] => (false, self)
  | Other o :: rest => serve rest (apply_op o self)
  | Request p :: rest =>
      let self' := handler_callback p self in
      if loop_breaks self' then (true, self') else serve rest self'
  | Idle :: rest =>
      if loop_breaks self then (true, self) else serve rest self
  end.

Definition wait_loop (sched : list Event) (self : OAuthServer) : bool * OAuthServer :=
  if loop_breaks self then (true, self) else serve sched self.

(** ** urllib.parse as used by [wait_for_call] *)

(** [c in s] *)
Fixpoint contains (c : ascii) (s : string) : bool :=
  match s with
  | EmptyString => false
  | String d r => if Ascii.eqb d c then true else contains c r
  end.

(** [s.split(sep, 1)] when [sep] occurs in [s]: the text before the
    first [sep] and the text after it. *)
Fixpoint split_first (sep : ascii) (s : string) : option (string * string) :=
  match s with
  | EmptyString => None
  | String d r =>
      if Ascii.eqb d sep then Some (EmptyString, r)
      else match split_first sep r with
           | Some (a, b) => Some (String d a, b)
           | None => None
           end
  end.

(** [s.split(sep)] *)
Fixpoint split (sep : ascii) (s : string) : list string :=
  match s with
  | EmptyString => [EmptyString]
  | String d r =>
      if Ascii.eqb d sep then EmptyString :: split sep r
      else match split sep r with
           | h :: t => String d h :: t
           | [] => [String d EmptyString]
           end
  end.

(** [s.replace('+', ' ')] *)
Fixpoint replace_plus (s : string) : string :=
  match s with
  | EmptyString => EmptyString
  | String d r => String (if Ascii.eqb d "+" then " "%char else d) (replace_plus r)
  end.

(** The letters, digits and signs of a URL scheme ([scheme_chars]). *)
Definition scheme_chars : string :=
  "abcdefghijklmnopqrstuvwxyzABCDEFGHIJKLMNOPQRSTUVWXYZ0123456789+-.".

(** [all(c in chars for c in s)] *)
Fixpoint all_in (chars s : string) : bool :=
  match s with
  | EmptyString => true
  | String c r => contains c chars && all_in chars r
  end.

(** The scheme step of [urlsplit]: with [i = url.find(':')], nothing is
    removed unless [i > 0]; the prefix ["http"] is removed with its
    colon; another prefix is removed when it is made of scheme
    characters and what follows the colon is empty or is not a port
    number.  The result is the text that [urlsplit] goes on with. *)
Definition strip_scheme (url : string) : string :=
  match split_first ":" url with
  | Some (before, rest) =>
      if bool_decide (before = EmptyString) then url
      else if bool_decide (before = "http") then rest
      else if all_in scheme_chars before then
        if bool_decide (rest = EmptyString) || negb (all_in "0123456789" rest)
        then rest else url
      else url
  | None => url
  end.

(** [_splitnetloc(url, 2)] on the text after the leading ["//"]: the
    network location, which ends before the first ['/'], ['?'] or
    ['#'], and the rest. *)
Fixpoint splitnetloc (s : string) : string * string :=
  match s with
  | EmptyString => (EmptyString, EmptyString)
  | String c r =>
      if contains c "/?#" then (EmptyString, s)
      else let '(netloc, rest) := splitnetloc r in (String c netloc, rest)
  end.

(** The last step of [urlsplit]: the fragment is cut off at the first
    ['#'] and the query is what follows the first ['?'] of the rest. *)
Definition query_component (url : string) : string :=
  let url' := match split_first "#" url with
              | Some (before, _) => before
              | None => url
              end in
  match split_first "?" url' with
  | Some (_, query) => query
  | None => EmptyString
  end.

(** [urllib.parse.urlparse(url).query], after [urlsplit] of Python 3.7,
    the version the package declares: the scheme is removed, then,
    when the text starts with ["//"], the network location, for which
    a bracket without its partner raises [ValueError]; the query is
    read from what is left.  ([urlparse] itself only splits the path
    further.  The check of [urlsplit] on a network location with
    characters outside ASCII raises for none of the characters of a
    [string]; the removal of tabs and line ends from the text, which
    later releases do first, is not part of this model.) *)
Definition urlparse_query (url : string) : PyResult string :=
  let url := strip_scheme url in
  match url with
  | String a (String b after) =>
      if Ascii.eqb a "/" && Ascii.eqb b "/" then
        let '(netloc, rest) := splitnetloc after in
        if (contains "[" netloc && negb (contains "]" netloc))
           || (contains "]" netloc && negb (contains "[" netloc))
        then Raise (ValueError "Invalid IPv6 URL")
        else Ok (query_component rest)
      else Ok (query_component url)
  | _ => Ok (query_component url)
  end.

Section Libmonzo.

(** The slow path of [urllib.parse.unquote]: the decoding of the
    percent escapes of a string that contains ['%'], with invalid UTF-8
    replaced.  It is a collaborator of this code and stays abstract. *)
Variable unquote_escapes : string -> string.

(** [urllib.parse.unquote]: a string without ['%'] is returned as it is. *)
Definition unquote (s : string) : string :=
  if contains "%" s then unquote_escapes s else s.

(** One field of [parse_qsl] with its defaults ([keep_blank_values] and
    [strict_parsing] false): an empty field, a field without ['='] and
    a field with an empty value are skipped. *)
Definition parse_field (name_value : string) : list (string * string) :=
  match split_first "=" name_value with
  | None => []
  | Some (name, value) =>
      if bool_decide (value = EmptyString) then []
      else [(unquote (replace_plus name), unquote (replace_plus value))]
  end.

(** [urllib.parse.parse_qsl(qs)], fields separated by ['&']. *)
Definition parse_qsl (qs : string) : list (string * string) :=
  flat_map parse_field (split "&" qs).

(** The loop body of [parse_qs]: append to the list of a known name,
    start a list for a new one. *)
Definition add_pair (parsed_result : gmap string (list string))
    (pair : string * string) : gmap string (list string) :=
  let '(name, value) := pair in
  match parsed_result !! name with
  | Some values => <[name := values ++ [value]]> parsed_result
  | None => <[name := [value]]> parsed_result
  end.

(** [urllib.parse.parse_qs(qs)] *)
Definition parse_qs (qs : string) : gmap string (list string) :=
  foldl add_pair ∅ (parse_qsl qs).

(** The code of [wait_for_call] after the loop, run under the lock. *)
Definition wait_epilogue (self : OAuthServer)
    : PyResult (option (gmap string (list string))) :=
  if _cancelled self then Ok None
  else if _completed self then
    match path self with
    | Some p =>
        match urlparse_query p with
        | Ok query => Ok (Some (parse_qs query))
        | Raise e => Raise e
        end
    | None => Raise (AttributeError "path")
    end
  else Raise (Exception "Call should be cancelled or completed by this point").

(** A result seen as the outcome of a call that did not block. *)
Definition outcome_of {A : Type} (r : PyResult A) : Outcome A :=
  match r with
  | Ok value => Returned value
  | Raise e => Raised e
  end.

(** [wait_for_call()]: [sched] is what happens during the loop and
    [late] the calls other threads make between the loop's last
    [lock.release()] and the [lock.acquire()] that follows it.  The
    second component is the server as the call leaves it. *)
Definition wait_for_call (sched : list Event) (late : list Op) (self : OAuthServer)
    : Outcome (option (gmap string (list string))) * OAuthServer :=
  match wait_loop sched self with
  | (false, waiting) => (Blocked, waiting)
  | (true, exited) =>
      let self' := run_ops late exited in
      (outcome_of (wait_epilogue self'), self')
  end.

(** A call on the server by the thread that owns it, [wait_for_call]
    included, and the server after a sequence of them. *)
Inductive Call : Type :=
  | Handler (p : string)
  | Stop
  | Wait (sched : list Event) (late : list Op).

Definition run_call (c : Call) (self : OAuthServer) : OAuthServer :=
  match c with
  | Handler p => handler_callback p self
  | Stop => stop self
  | Wait sched late => snd (wait_for_call sched late self)
  end.

Definition run_calls (calls : list Call) (self : OAuthServer) : OAuthServer :=
  foldl (fun s c => run_call c s) self calls.

(** ** monzo.py *)

Definition REDIRECT_PORT : Z := 36453.
Definition REDIRECT_PATH : string := "monzo_callback".

(** [MonzoClient.redirect_uri()] *)
Definition redirect_uri : string :=
  "http://localhost:" +:+ pretty REDIRECT_PORT +:+ "/" +:+ REDIRECT_PATH.

Record MonzoClient : Type := mkMonzoClient {
  client_id : string;
  owner_id : string;
  client_secret : string;
  access_token : option string;
  account_id : option string;
  state_token : string
}.

(** [MonzoClient.__init__] *)
Definition MonzoClient_init (client_id owner_id client_secret : string) (g : Rng)
    : MonzoClient * Rng :=
  let '(token, g') := random_string 20 g in
  ({| client_id := client_id; owner_id := owner_id;
      client_secret := client_secret; access_token := None;
      account_id := None; state_token := token |}, g').

(** A value of the [data] dictionary handed to [requests]. *)
Inductive FormValue : Type :=
  | FStr (s : string)
  | FInt (z : Z)
  | FList (values : list string).

Inductive Method : Type := GET | POST | PUT | PATCH | DELETE.

Record HttpRequest : Type := mkHttpRequest {
  method : Method;
  url : string;
  data : list (string * FormValue);
  headers : list (string * string)
}.

Record HttpResponse : Type := mkHttpResponse {
  status_code : Z;
  text : string
}.

(** What the client does to the outside world, in order. *)
Inductive Effect : Type :=
  | OpenBrowser (url : string)
  | Http (request : HttpRequest).

(** The response of the network to a request, given what the client
    did before. *)
Variable network : list Effect -> HttpRequest -> HttpResponse.

(** [response.json()["access_token"]]: the decoding of the body and the
    subscript, either of which may raise. *)
Variable json_access_token : HttpResponse -> PyResult string.

(** The pots of [libmonzo/types.py] and [Pot.from_json(response.json())]. *)
Variable Pot : Type.
Variable Pot_from_json : HttpResponse -> PyResult (list Pot).

(** The [url] that [authenticate] builds and opens. *)
Definition authorization_url (self : MonzoClient) : string :=
  "https://auth.monzo.com/"
  +:+ "?client_id=" +:+ client_id self
  +:+ "&redirect_uri=" +:+ redirect_uri
  +:+ "&response_type=code"
  +:+ "&state=" +:+ state_token self.

(** [MonzoClient.authenticate()].  The result is what the call
    returns or raises, the client afterwards and the effects so far.
    The construction of the server, which binds the port, is taken to
    succeed. *)
Definition authenticate (self : MonzoClient) (sched : list Event) (late : list Op)
    (log : list Effect) : Outcome bool * MonzoClient * list Effect :=
  let server := OAuthServer_init REDIRECT_PORT in
  let url := authorization_url self in
  let log := log ++ [OpenBrowser url] in
  match fst (wait_for_call sched late server) with
  | Blocked => (Blocked, self, log)
  | Raised e => (Raised e, self, log)
  | Returned None =>
      (Raised (MonzoError MonzoAPIError
         "Failed to authenticate correctly. The response parameters were invalid."),
       self, log)
  | Returned (Some parameters) =>
      match parameters !! "code" with
      | None => (Raised (KeyError "code"), self, log)
      | Some authorization_code =>
          match parameters !! "state" with
          | None => (Raised (KeyError "state"), self, log)
          | Some state_values =>
              if negb (List.length state_values =? 1)%nat
              then (Raised (Exception "Invalid return state"), self, log)
              else
                match state_values with
                | [] => (Raised (OtherError "IndexError"), self, log)
                | state_value :: _ =>
                    if bool_decide (state_token self ≠ state_value)
                    then (Raised (Exception "State did not match"), self, log)
                    else
                      let request :=
                        {| method := POST;
                           url := "https://api.monzo.com/oauth2/token";
                           data := [("grant_type", FStr "authorization_code");
                                    ("client_id", FStr (client_id self));
                                    ("client_secret", FStr (client_secret self));
                                    ("redirect_uri", FStr redirect_uri);
                                    ("code", FList authorization_code)];
                           headers := [] |} in
                      let response := network log request in
                      let log := log ++ [Http request] in
                      match json_access_token response with
                      | Raise e => (Raised e, self, log)
                      | Ok token =>
                          (Returned true,
                           {| client_id := client_id self;
                              owner_id := owner_id self;
                              client_secret := client_secret self;
                              access_token := Some token;
                              account_id := account_id self;
                              state_token := state_token self |},
                           log)
                      end
                end
          end
      end
  end.

Definition error_map : gmap Z MonzoErrorClass :=
  list_to_map
    [(400, MonzoBadRequestError);
     (401, MonzoUnauthorizedError);
     (403, MonzoForbiddenError);
     (404, MonzoNotFoundError);
     (405, MonzoMethodNotAllowedError);
     (406, MonzoNotAcceptableError);
     (429, MonzoTooManyRequestsError);
     (500, MonzoInternalServerError);
     (504, MonzoGatewayTimeoutError)].

(** [MonzoClient._handle_response] *)
Definition _handle_response (response : HttpResponse) : PyResult HttpResponse :=
  if (status_code response <? 200)%Z || (status_code response >=? 300)%Z then
    let error_class := default MonzoAPIError (error_map !! status_code response) in
    Raise (MonzoError error_class
             ("Error fetching request: (" +:+ pretty (status_code response)
              +:+ "): " +:+ text response))
  else Ok response.

(** [f'Bearer {self.access_token}'] *)
Definition bearer (self : MonzoClient) : string :=
  "Bearer " +:+ default "None" (access_token self).

(** [MonzoClient.put] *)
Definition put (self : MonzoClient) (path : string)
    (data : list (string * FormValue)) (log : list Effect)
    : PyResult HttpResponse * list Effect :=
  let request :=
    {| method := PUT; url := "https://api.monzo.com/" +:+ path;
       data := data; headers := [("Authorization", bearer self)] |} in
  (_handle_response (network log request), log ++ [Http request]).

(** The default values of the [dedupe_id] parameters.  Python
    evaluates a default once, when the [def] statement of the method
    runs, that is when the class body is executed. *)
Record MonzoClientClass : Type := mkMonzoClientClass {
  deposit_into_pot_default : string;
  withdraw_from_pot_default : string
}.

(** The execution of the body of [class MonzoClient], as far as it
    reads entropy. *)
Definition MonzoClient_class (g : Rng) : MonzoClientClass * Rng :=
  let '(deposit_default, g1) := random_string 20 g in
  let '(withdraw_default, g2) := random_string 20 g1 in
  ({| deposit_into_pot_default := deposit_default;
      withdraw_from_pot_default := withdraw_default |}, g2).

(** [Pot.from_json(response.json())[0]] *)
Definition first_pot (response : HttpResponse) : PyResult Pot :=
  match Pot_from_json response with
  | Raise e => Raise e
  | Ok [] => Raise (OtherError "IndexError")
  | Ok (pot :: _) => Ok pot
  end.

(** [MonzoClient.deposit_into_pot]; [dedupe_id] is [None] when the
    caller leaves the argument out. *)
Definition deposit_into_pot (cls : MonzoClientClass) (self : MonzoClient)
    (pot_id source_account_id : string) (amount : Z) (dedupe_id : option string)
    (log : list Effect) : PyResult Pot * list Effect :=
  let dedupe_id := default (deposit_into_pot_default cls) dedupe_id in
  match put self ("pots/" +:+ pot_id +:+ "/deposit")
            [("source_account_id", FStr source_account_id);
             ("amount", FInt amount);
             ("dedupe_id", FStr dedupe_id)] log with
  | (Raise e, log') => (Raise e, log')
  | (Ok response, log') => (first_pot response, log')
  end.

(** [MonzoClient.withdraw_from_pot] *)
Definition withdraw_from_pot (cls : MonzoClientClass) (self : MonzoClient)
    (pot_id destination_account_id : string) (amount : Z) (dedupe_id : option string)
    (log : list Effect) : PyResult Pot * list Effect :=
  let dedupe_id := default (withdraw_from_pot_default cls) dedupe_id in
  match put self ("pots/" +:+ pot_id +:+ "/withdraw")
            [("destination_account_id", FStr destination_account_id);
             ("amount", FInt amount);
             ("dedupe_id", FStr dedupe_id)] log with
  | (Raise e, log') => (Raise e, log')
  | (Ok response, log') => (first_pot response, log')
  end.

(** ** Reading the effects *)

(** The requests among the effects, oldest first. *)
Definition requests_of (effects : list Effect) : list HttpRequest :=
  omap (fun e => match e with Http r => Some r | OpenBrowser _ => None end) effects.

(** [data[key]] of a request body. *)
Definition field (key : string) (request : HttpRequest) : option FormValue :=
  snd <$> List.find (fun kv => bool_decide (fst kv = key)) (data request).

(** ** Vocabulary of the properties *)

(** The values paired with [name] in a list of pairs, in their order;
    [None] when there is none. *)
Definition values_of (name : string) (pairs : list (string * string))
    : option (list string) :=
  match snd <$> filter (fun kv => fst kv = name) pairs with
  | [] => None
  | values => Some values
  end.

(** The error class that the interface description assigns to a
    status: nine statuses have a class of their own, every other one
    has the generic class. *)
Definition dedicated_error_class (status : Z) : MonzoErrorClass :=
  if (status =? 400)%Z then MonzoBadRequestError
  else if (status =? 401)%Z then MonzoUnauthorizedError
  else if (status =? 403)%Z then MonzoForbiddenError
  else if (status =? 404)%Z then MonzoNotFoundError
  else if (status =? 405)%Z then MonzoMethodNotAllowedError
  else if (status =? 406)%Z then MonzoNotAcceptableError
  else if (status =? 429)%Z then MonzoTooManyRequestsError
  else if (status =? 500)%Z then MonzoInternalServerError
  else if (status =? 504)%Z then MonzoGatewayTimeoutError
  else MonzoAPIError.

(** The [dedupe_id] of the body of the last request among the effects. *)
Definition sent_dedupe_id (effects : list Effect) : option FormValue :=
  last (requests_of effects) ≫= field "dedupe_id".

(** The characters the token description calls visually confusable. *)
Definition confusable : list ascii := ["0"; "1"; "I"; "O"; "l"]%char.

(** The flags of [after] are at least those of [before]. *)
Definition flags_le (before after : OAuthServer) : Prop :=
  Bool.le (_completed before) (_completed after) /\
  Bool.le (_cancelled before) (_cancelled after).

(** A completed server holds the path it was completed with. *)
Definition captured (self : OAuthServer) : Prop :=
  _completed self = true -> exists p, path self = Some p.

(** The client with [token] as its access token. *)
Definition with_access_token (token : string) (self : MonzoClient) : MonzoClient :=
  {| client_id := client_id self; owner_id := owner_id self;
     client_secret := client_secret self; access_token := Some token;
     account_id := account_id self; state_token := state_token self |}.

(** The token request of [authenticate] for the code [code]. *)
Definition token_request (self : MonzoClient) (codes : list string) : HttpRequest :=
  {| method := POST;
     url := "https://api.monzo.com/oauth2/token";
     data := [("grant_type", FStr "authorization_code");
              ("client_id", FStr (client_id self));
              ("client_secret", FStr (client_secret self));
              ("redirect_uri", FStr redirect_uri);
              ("code", FList codes)];
     headers := [] |}.

(** A text that a query string carries unchanged as a value: it has
    none of ['&'], ['#'], ['+'] and ['%']. *)
Definition plain (s : string) : bool :=
  negb (contains "&" s || contains "#" s || contains "+" s || contains "%" s).

(** The unreserved characters of a URL: letters, digits and four signs. *)
Definition unreserved : string :=
  "ABCDEFGHIJKLMNOPQRSTUVWXYZabcdefghijklmnopqrstuvwxyz0123456789-._~".

(** A pair of a name and a value that a query string spells as they
    are: both of unreserved characters, the value not empty. *)
Definition simple_field (field : string * string) : bool :=
  all_in unreserved (fst field) && all_in unreserved (snd field)
  && negb (bool_decide (snd field = EmptyString)).

(** The query string [name=value&name=value...] of a list of pairs. *)
Fixpoint query_of (fields : list (string * string)) : string :=
  match fields with
  | [] => EmptyString
  | [(name, value)] => name +:+ String "=" value
  | (name, value) :: rest =>
      name +:+ String "=" (value +:+ String "&" (query_of rest))
  end.

(** ** types.py: colours *)

Record Color : Type := mkColor { hex_code : string }.

(** [s.startswith('#')] *)
Definition startswith_hash (s : string) : bool :=
  match s with
  | String c _ => Ascii.eqb c "#"
  | EmptyString => false
  end.

(** [Color.__init__], for a [hex_code] of ASCII characters (so that
    [len] is the number of bytes). *)
Definition Color_init (hex_code : string) : PyResult Color :=
  let hex_code := if negb (startswith_hash hex_code)
                  then String "#" hex_code else hex_code in
  if negb (String.length hex_code =? 7)%nat
  then Raise (AttributeError "Hex code was invalid")
  else Ok (mkColor hex_code).

(** ** types.py: decoded JSON *)

(** What [response.json()] returns.  A number with a fraction or an
    exponent is kept as its text.  The items of a dictionary are in
    its order and have distinct keys. *)
#[warnings="-register-all"] Inductive Json : Type :=
  | JNull
  | JBool (b : bool)
  | JInt (z : Z)
  | JFloat (text : string)
  | JStr (s : string)
  | JList (elements : list Json)
  | JDict (items : list (string * Json)).

Definition bind {A B : Type} (r : PyResult A) (k : A -> PyResult B) : PyResult B :=
  match r with
  | Ok value => k value
  | Raise e => Raise e
  end.

Notation "x <- r ;; k" := (bind r (fun x => k))
  (at level 100, r at next level, right associativity, only parsing).

(** A comprehension or [for] loop that builds a list: the elements are
    handled in order and the first exception ends the loop. *)
Fixpoint for_each {A B : Type} (f : A -> PyResult B) (l : list A) : PyResult (list B) :=
  match l with
  | [] => Ok []
  | x :: rest => y <- f x ;; ys <- for_each f rest ;; Ok (y :: ys)
  end.

Definition dict_lookup (key : string) (items : list (string * Json)) : option Json :=
  snd <$> List.find (fun kv => bool_decide (fst kv = key)) items.

(** [value[key]] for a string [key]: only a dictionary can be
    subscripted with a string. *)
Definition getitem (value : Json) (key : string) : PyResult Json :=
  match value with
  | JDict items =>
      match dict_lookup key items with
      | Some v => Ok v
      | None => Raise (KeyError key)
      end
  | _ => Raise (OtherError "TypeError")
  end.

(** [value.get(key)]: only a dictionary has the method. *)
Definition get_method (value : Json) (key : string) : PyResult Json :=
  match value with
  | JDict items => Ok (default JNull (dict_lookup key items))
  | _ => Raise (AttributeError "get")
  end.

(** [value is not None] *)
Definition is_not_None (value : Json) : bool :=
  match value with
  | JNull => false
  | _ => true
  end.

(** The elements that [for x in value] goes through: those of a list,
    the keys of a dictionary, the characters of a string. *)
Definition iterate (value : Json) : PyResult (list Json) :=
  match value with
  | JList elements => Ok elements
  | JDict items => Ok ((fun kv => JStr (fst kv)) <$> items)
  | JStr s => Ok ((fun c => JStr (String c EmptyString)) <$> list_ascii_of_string s)
  | _ => Raise (OtherError "TypeError")
  end.

(** ** types.py: webhooks, attachments, balances, identities *)

Record Webhook : Type := mkWebhook {
  webhook_identifier : Json;
  webhook_account_id : Json;
  webhook_url : Json
}.

(** The body of the loop of [Webhook.from_json]. *)
Definition Webhook_of (webhook : Json) : PyResult Webhook :=
  identifier <- getitem webhook "id" ;;
  account_id <- getitem webhook "account_id" ;;
  url <- getitem webhook "url" ;;
  Ok (mkWebhook identifier account_id url).

(** [Webhook.from_json] *)
Definition Webhook_from_json (response : Json) : PyResult (list Webhook) :=
  plural <- get_method response "webhooks" ;;
  webhooks <-
    (if is_not_None plural then getitem response "webhooks"
     else
       singular <- get_method response "webhook" ;;
       if is_not_None singular
       then (webhook <- getitem response "webhook" ;; Ok (JList [webhook]))
       else Ok (JList [response])) ;;
  elements <- iterate webhooks ;;
  for_each Webhook_of elements.

Record Attachment : Type := mkAttachment {
  attachment_identifier : Json;
  attachment_external_id : Json;
  attachment_file_type : Json;
  attachment_file_url : Json;
  attachment_user_id : Json
}.

(** [Attachment.from_json] *)
Definition Attachment_from_json (response : Json) : PyResult Attachment :=
  identifier <- get_method response "id" ;;
  external_id <- getitem response "external_id" ;;
  file_type <- getitem response "file_type" ;;
  file_url <- getitem response "file_url" ;;
  user_id <- getitem response "user_id" ;;
  Ok (mkAttachment identifier external_id file_type file_url user_id).

Record Balance : Type := mkBalance {
  balance_balance : Json;
  balance_total_balance : Json;
  balance_spend_today : Json;
  balance_currency : Json
}.

(** [Balance.from_json] *)
Definition Balance_from_json (response : Json) : PyResult Balance :=
  balance <- getitem response "balance" ;;
  total_balance <- getitem response "total_balance" ;;
  spend_today <- getitem response "spend_today" ;;
  currency <- getitem response "currency" ;;
  Ok (mkBalance balance total_balance spend_today currency).

Record WhoAmI : Type := mkWhoAmI {
  whoami_authenticated : Json;
  whoami_client_id : Json;
  whoami_user_id : Json
}.

(** [WhoAmI.from_json] *)
Definition WhoAmI_from_json (response : Json) : PyResult WhoAmI :=
  authenticated <- getitem response "authenticated" ;;
  client_id <- getitem response "client_id" ;;
  user_id <- getitem response "user_id" ;;
  Ok (mkWhoAmI authenticated client_id user_id).

(** ** monzo.py: the other requests *)

(** [response.json()]: the decoding of the body, which may raise. *)
Variable response_json : HttpResponse -> PyResult Json.

(** [MonzoClient.get] *)
Definition MonzoClient_get (self : MonzoClient) (path : string) (log : list Effect)
    : PyResult HttpResponse * list Effect :=
  let request :=
    {| method := GET; url := "https://api.monzo.com/" +:+ path;
       data := []; headers := [("Authorization", bearer self)] |} in
  (_handle_response (network log request), log ++ [Http request]).

(** [MonzoClient.post] with [data] given and [json] left out, as in
    every call of the module. *)
Definition MonzoClient_post (self : MonzoClient) (path : string)
    (data : list (string * FormValue)) (log : list Effect)
    : PyResult HttpResponse * list Effect :=
  let request :=
    {| method := POST; url := "https://api.monzo.com/" +:+ path;
       data := data; headers := [("Authorization", bearer self)] |} in
  (_handle_response (network log request), log ++ [Http request]).

(** [MonzoClient.delete] *)
Definition MonzoClient_delete (self : MonzoClient) (path : string) (log : list Effect)
    : PyResult HttpResponse * list Effect :=
  let request :=
    {| method := DELETE; url := "https://api.monzo.com/" +:+ path;
       data := []; headers := [("Authorization", bearer self)] |} in
  (_handle_response (network log request), log ++ [Http request]).

(** What follows a request in the methods below: the exception of the
    request, or [decode] applied to the response. *)
Definition and_then {A : Type} (sent : PyResult HttpResponse * list Effect)
    (decode : HttpResponse -> PyResult A) : PyResult A * list Effect :=
  match sent with
  | (Raise e, log') => (Raise e, log')
  | (Ok response, log') => (decode response, log')
  end.

(** [results[0]] *)
Definition first_of {A : Type} (results : list A) : PyResult A :=
  match results with
  | [] => Raise (OtherError "IndexError")
  | result :: _ => Ok result
  end.

(** [MonzoClient.whoami] *)
Definition whoami (self : MonzoClient) (log : list Effect)
    : PyResult WhoAmI * list Effect :=
  and_then (MonzoClient_get self "ping/whoami" log)
    (fun response => json <- response_json response ;; WhoAmI_from_json json).

(** [MonzoClient.balance] *)
Definition balance (self : MonzoClient) (account_id : string) (log : list Effect)
    : PyResult Balance * list Effect :=
  and_then (MonzoClient_get self ("balance?account_id=" +:+ account_id) log)
    (fun response => json <- response_json response ;; Balance_from_json json).

(** [MonzoClient.list_webhooks] *)
Definition list_webhooks (self : MonzoClient) (account_id : string)
    (log : list Effect) : PyResult (list Webhook) * list Effect :=
  and_then (MonzoClient_get self ("webhooks?account_id=" +:+ account_id) log)
    (fun response => json <- response_json response ;; Webhook_from_json json).

(** [MonzoClient.register_webhook] *)
Definition register_webhook (self : MonzoClient) (account_id url : string)
    (log : list Effect) : PyResult Webhook * list Effect :=
  and_then (MonzoClient_post self "webhooks"
              [("account_id", FStr account_id); ("url", FStr url)] log)
    (fun response =>
       json <- response_json response ;;
       webhooks <- Webhook_from_json json ;;
       first_of webhooks).

(** [MonzoClient.delete_webhook] *)
Definition delete_webhook (self : MonzoClient) (webhook_id : string)
    (log : list Effect) : PyResult unit * list Effect :=
  and_then (MonzoClient_delete self ("webhooks/" +:+ webhook_id) log)
    (fun _ => Ok tt).

(** [MonzoClient.register_attachment] *)
Definition register_attachment (self : MonzoClient)
    (transaction_id url mime_type : string) (log : list Effect)
    : PyResult Attachment * list Effect :=
  and_then (MonzoClient_post self "attachment/register"
              [("external_id", FStr transaction_id);
               ("file_type", FStr mime_type);
               ("file_url", FStr url)] log)
    (fun response =>
       data <- response_json response ;;
       attachment <- getitem data "attachment" ;;
       Attachment_from_json attachment).

(** [MonzoClient.unregister_attachment] *)
Definition unregister_attachment (self : MonzoClient) (attachment_id : string)
    (log : list Effect) : PyResult unit * list Effect :=
  and_then (MonzoClient_post self "attachment/deregister"
              [("id", FStr attachment_id)] log)
    (fun _ => Ok tt).

(** The entry that [create_feed_item] adds to [post_data] for an
    argument that is not [None]. *)
Definition optional_entry {A : Type} (key : string) (value : option A)
    (text : A -> string) : list (string * FormValue) :=
  match value with
  | Some v => [(key, FStr (text v))]
  | None => []
  end.

(** [MonzoClient.create_feed_item] *)
Definition create_feed_item (self : MonzoClient) (account_id title image_url : string)
    (body : option string) (background_color body_color title_color : option Color)
    (url : option string) (log : list Effect) : PyResult unit * list Effect :=
  let post_data :=
    [("type", FStr "basic");
     ("account_id", FStr account_id);
     ("params[title]", FStr title);
     ("params[image_url]", FStr image_url)]
    ++ optional_entry "params[body]" body (fun s => s)
    ++ optional_entry "params[background_color]" background_color hex_code
    ++ optional_entry "params[body_color]" body_color hex_code
    ++ optional_entry "params[title_color]" title_color hex_code
    ++ optional_entry "url" url (fun s => s) in
  and_then (MonzoClient_post self "feed" post_data log) (fun _ => Ok tt).


(** The request that [register_webhook] sends. *)
Definition webhook_request (self : MonzoClient) (account_id url : string)
    : HttpRequest :=
  mkHttpRequest POST "https://api.monzo.com/webhooks"
    [("account_id", FStr account_id); ("url", FStr url)]
    [("Authorization", bearer self)].


(** A call that sent one request and raised the error of its status,
    with the status and the body in the message. *)
Definition rejected {A : Type} (log : list Effect)
    (result : PyResult A * list Effect) : Prop :=
  exists request,
    let response := network log request in
    result =
    (Raise (MonzoError (dedicated_error_class (status_code response))
              ("Error fetching request: (" +:+ pretty (status_code response)
               +:+ "): " +:+ text response)),
     log ++ [Http request]).

(** Effects that add to [log] one request, with [authorization] as
    its only header. *)
Definition one_request (log effects : list Effect) (authorization : string) : Prop :=
  exists request,
    effects = log ++ [Http request] /\
    headers request = [("Authorization", authorization)].


(** * Properties *)

(** ** The server: flags and captured path *)

Lemma bool_le_refl (b : bool) : Bool.le b b.
Proof. destruct b; simpl; auto. Qed.

Lemma bool_le_trans (a b c : bool) : Bool.le a b -> Bool.le b c -> Bool.le a c.
Proof. destruct a, b, c; simpl; auto; discriminate. Qed.

Lemma flags_le_refl (s : OAuthServer) : flags_le s s.
Proof. split; apply bool_le_refl. Qed.

Lemma flags_le_trans (a b c : OAuthServer) :
  flags_le a b -> flags_le b c -> flags_le a c.
Proof. intros [? ?] [? ?]. split; eapply bool_le_trans; eauto. Qed.

Lemma flags_le_apply_op (o : Op) (s : OAuthServer) : flags_le s (apply_op o s).
Proof.
  destruct o; split; simpl; try apply bool_le_refl.
  - destruct (_completed s); simpl; auto.
  - destruct (_cancelled s); simpl; auto.
Qed.

Lemma run_ops_snoc (ops : list Op) (o : Op) (s : OAuthServer) :
  run_ops (ops ++ [o]) s = apply_op o (run_ops ops s).
Proof. unfold run_ops. now rewrite foldl_snoc. Qed.

Lemma flags_le_run_ops (ops : list Op) (s : OAuthServer) : flags_le s (run_ops ops s).
Proof.
  revert s. induction ops as [|o ops IH]; intros s; simpl.
  - apply flags_le_refl.
  - eapply flags_le_trans; [apply flags_le_apply_op | apply IH].
Qed.

Lemma flags_le_serve (sched : list Event) (s : OAuthServer) :
  flags_le s (snd (serve sched s)).
Proof.
  revert s. induction sched as [|e sched IH]; intros s; cbn [serve].
  - apply flags_le_refl.
  - destruct e as [o|p|].
    + eapply flags_le_trans; [apply flags_le_apply_op | apply IH].
    + destruct (loop_breaks (handler_callback p s)); cbn [snd].
      * apply (flags_le_apply_op (CallHandler p)).
      * eapply flags_le_trans; [apply (flags_le_apply_op (CallHandler p)) | apply IH].
    + destruct (loop_breaks s); cbn [snd]; [apply flags_le_refl | apply IH].
Qed.

Lemma flags_le_wait_loop (sched : list Event) (s : OAuthServer) :
  flags_le s (snd (wait_loop sched s)).
Proof.
  unfold wait_loop. destruct (loop_breaks s); simpl.
  - apply flags_le_refl.
  - apply flags_le_serve.
Qed.

Lemma flags_le_wait_for_call (sched : list Event) (late : list Op) (s : OAuthServer) :
  flags_le s (snd (wait_for_call sched late s)).
Proof.
  unfold wait_for_call.
  pose proof (flags_le_wait_loop sched s) as H.
  destruct (wait_loop sched s) as [[|] s']; simpl in *; auto.
  eapply flags_le_trans; [exact H | apply flags_le_run_ops].
Qed.

Lemma flags_le_run_call (c : Call) (s : OAuthServer) : flags_le s (run_call c s).
Proof.
  destruct c as [p| |sched late]; simpl.
  - apply (flags_le_apply_op (CallHandler p)).
  - apply (flags_le_apply_op CallStop).
  - apply flags_le_wait_for_call.
Qed.

Lemma flags_le_run_calls (calls : list Call) (s : OAuthServer) :
  flags_le s (run_calls calls s).
Proof.
  revert s. induction calls as [|c calls IH]; intros s; simpl.
  - apply flags_le_refl.
  - eapply flags_le_trans; [apply flags_le_run_call | apply IH].
Qed.

(** The loop is only left with one of the two flags set. *)
Lemma serve_exit (sched : list Event) (s s' : OAuthServer) :
  serve sched s = (true, s') -> loop_breaks s' = true.
Proof.
  revert s. induction sched as [|e sched IH]; intros s; cbn [serve].
  - discriminate.
  - destruct e as [o|p|].
    + apply IH.
    + destruct (loop_breaks (handler_callback p s)) eqn:E.
      * intros [= <-]. exact E.
      * apply IH.
    + destruct (loop_breaks s) eqn:E.
      * intros [= <-]. exact E.
      * apply IH.
Qed.

Lemma wait_loop_exit (sched : list Event) (s s' : OAuthServer) :
  wait_loop sched s = (true, s') -> loop_breaks s' = true.
Proof.
  unfold wait_loop. destruct (loop_breaks s) eqn:E.
  - intros [= <-]. exact E.
  - apply serve_exit.
Qed.

Lemma loop_breaks_flags_le (s s' : OAuthServer) :
  flags_le s s' -> loop_breaks s = true -> loop_breaks s' = true.
Proof.
  unfold loop_breaks. intros [Hc Hx].
  destruct (_completed s), (_cancelled s); simpl in *;
    try rewrite Hc; try rewrite Hx; try discriminate; auto.
  destruct (_completed s'); auto.
Qed.

Lemma captured_init (port : Z) : captured (OAuthServer_init port).
Proof. unfold captured. simpl. discriminate. Qed.

Lemma captured_apply_op (o : Op) (s : OAuthServer) :
  captured s -> captured (apply_op o s).
Proof.
  unfold captured. destruct o as [p|]; simpl; intros H.
  - intros _. now exists p.
  - exact H.
Qed.

Lemma captured_run_ops (ops : list Op) (s : OAuthServer) :
  captured s -> captured (run_ops ops s).
Proof.
  revert s. induction ops as [|o ops IH]; intros s H; simpl; auto.
  apply IH, captured_apply_op, H.
Qed.

Lemma captured_serve (sched : list Event) (s : OAuthServer) :
  captured s -> captured (snd (serve sched s)).
Proof.
  revert s. induction sched as [|e sched IH]; intros s H; cbn [serve]; auto.
  destruct e as [o|p|].
  - apply IH, captured_apply_op, H.
  - pose proof (captured_apply_op (CallHandler p) s H) as H'. cbn [apply_op] in H'.
    destruct (loop_breaks (handler_callback p s)); cbn [snd]; auto.
  - destruct (loop_breaks s); cbn [snd]; auto.
Qed.

Lemma captured_wait_loop (sched : list Event) (s : OAuthServer) :
  captured s -> captured (snd (wait_loop sched s)).
Proof.
  unfold wait_loop. intros H. destruct (loop_breaks s); simpl; auto.
  now apply captured_serve.
Qed.

(** C1 (amended).  Over any sequence of [handler_callback],
    [wait_for_call] and [stop] calls, from any server, each of the two
    flags only ever goes from false to true; but both can be true
    together: [stop] sets [_cancelled] whatever the state and leaves
    [_completed] and the path as they are, so after a completion
    followed by [stop] both flags are set, and a [wait_for_call] made
    then returns [None]. *)
Theorem flags_only_rise (calls : list Call) (s : OAuthServer) :
  Bool.le (_completed s) (_completed (run_calls calls s)) /\
  Bool.le (_cancelled s) (_cancelled (run_calls calls s)) /\
  _cancelled (stop s) = true /\
  _completed (stop s) = _completed s /\
  path (stop s) = path s /\
  forall (p : string) (sched : list Event) (late : list Op),
    let s' := stop (handler_callback p s) in
    _completed s' = true /\ _cancelled s' = true /\
    fst (wait_for_call sched late s') = Returned None.
Proof.
  destruct (flags_le_run_calls calls s) as [Hc Hx].
  repeat split; auto.
  unfold wait_for_call, wait_loop. cbn [loop_breaks stop handler_callback
    _completed _cancelled fst].
  pose proof (flags_le_run_ops late (stop (handler_callback p s))) as [_ Hl].
  cbn [stop _cancelled Bool.le] in Hl.
  unfold wait_epilogue. cbn [stop handler_callback] in *. now rewrite Hl.
Qed.

(** C2 (amended).  A second invocation of [handler_callback] is not
    discarded: it overwrites the path, so the server keeps the path of
    the latest invocation and is as if only that one had happened; the
    server stays completed. *)
Theorem handler_callback_last_wins (p1 p2 : string) (s : OAuthServer) :
  handler_callback p2 (handler_callback p1 s) = handler_callback p2 s /\
  path (handler_callback p2 (handler_callback p1 s)) = Some p2 /\
  _completed (handler_callback p2 (handler_callback p1 s)) = true.
Proof. repeat split. Qed.

Lemma urlparse_query_error (p : string) (e : PyExc) :
  urlparse_query p = Raise e -> e = ValueError "Invalid IPv6 URL".
Proof.
  unfold urlparse_query.
  destruct (strip_scheme p) as [|a [|b after]]; try discriminate.
  destruct (Ascii.eqb a "/" && Ascii.eqb b "/"); [|discriminate].
  destruct (splitnetloc after) as [netloc rest].
  destruct (_ || _); [|discriminate].
  now intros [= <-].
Qed.

(** C4 (amended).  After the loop, [wait_for_call] returns [None] when
    the cancelled flag is set; otherwise, when the completed flag is
    set, it parses the captured path, and returns the parameters of
    its query when [urlparse] accepts the path and raises the
    [ValueError] of [urlparse] when it does not; and when neither flag
    is set it raises.  The server starts as [__init__] leaves it and
    has been through any calls [pre] before [wait_for_call]; [s] is the
    server under the lock after the loop.  The second part states the
    last branch on its own, for a server with neither flag set; the
    third shows the two outcomes of a completed server on one path
    each. *)
Theorem wait_for_call_outcomes
    (port : Z) (pre : list Op) (sched : list Event) (late : list Op) :
  let s0 := run_ops pre (OAuthServer_init port) in
  let r := fst (wait_for_call sched late s0) in
  match wait_loop sched s0 with
  | (false, _) => r = Blocked
  | (true, exited) =>
      let s := run_ops late exited in
      match _cancelled s, _completed s with
      | true, _ => r = Returned None
      | false, true =>
          exists p, path s = Some p /\
            match urlparse_query p with
            | Ok query => r = Returned (Some (parse_qs query))
            | Raise e => e = ValueError "Invalid IPv6 URL" /\ r = Raised e
            end
      | false, false =>
          r = Raised (Exception "Call should be cancelled or completed by this point")
      end
  end /\
  (forall (port' : Z) (unused captured_path : option string),
     wait_epilogue (mkOAuthServer port' false false unused captured_path)
     = Raise (Exception "Call should be cancelled or completed by this point")) /\
  (exists m : gmap string (list string),
     fst (wait_for_call [Request "/monzo_callback?code=ABC&state=XYZ"] []
            (OAuthServer_init port)) = Returned (Some m) /\
     m !! "code" = Some ["ABC"] /\ m !! "state" = Some ["XYZ"]) /\
  fst (wait_for_call [Request "http://["] [] (OAuthServer_init port))
  = Raised (ValueError "Invalid IPv6 URL").
Proof.
  intros s0 r. split; [|split; [reflexivity|]; split; [|reflexivity]].
  2:{ exists (parse_qs "code=ABC&state=XYZ"). split; [reflexivity|].
      split; now vm_compute. }
  subst r. unfold wait_for_call.
  pose proof (captured_wait_loop sched s0
                (captured_run_ops pre _ (captured_init port))) as Hcap.
  destruct (wait_loop sched s0) as [[|] exited]; cbn [fst snd] in *; [|reflexivity].
  apply (captured_run_ops late) in Hcap.
  unfold wait_epilogue, captured in *.
  destruct (_cancelled (run_ops late exited)); [reflexivity|].
  destruct (_completed (run_ops late exited)); [|reflexivity].
  destruct (Hcap eq_refl) as [p Hp]. exists p. rewrite Hp. split; [reflexivity|].
  destruct (urlparse_query p) as [query|e] eqn:E; [reflexivity|].
  split; [now apply (urlparse_query_error p) | reflexivity].
Qed.

(** The third branch of [wait_for_call] is never taken: the loop only
    ends with a flag set, and the flags are never cleared. *)
Lemma wait_for_call_never_neither
    (sched : list Event) (late : list Op) (s0 exited : OAuthServer) :
  wait_loop sched s0 = (true, exited) ->
  loop_breaks (run_ops late exited) = true.
Proof.
  intros H. eapply loop_breaks_flags_le.
  - apply flags_le_run_ops.
  - eapply wait_loop_exit, H.
Qed.

(** ** Parsing the captured path *)

Lemma split_first_none (sep : ascii) (s : string) :
  contains sep s = false -> split_first sep s = None.
Proof.
  induction s as [|d r IH]; cbn [contains split_first]; [reflexivity|].
  destruct (Ascii.eqb d sep); [discriminate|].
  intros H. now rewrite (IH H).
Qed.

Lemma append_nil (s : string) : EmptyString +:+ s = s.
Proof. reflexivity. Qed.

Lemma append_cons (d : ascii) (r s : string) :
  String d r +:+ s = String d (r +:+ s).
Proof. reflexivity. Qed.

Lemma split_first_append (sep : ascii) (before after : string) :
  contains sep before = false ->
  split_first sep (before +:+ String sep after) = Some (before, after).
Proof.
  induction before as [|d r IH]; cbn [contains].
  - intros _. rewrite append_nil. cbn [split_first]. now rewrite Ascii.eqb_refl.
  - rewrite append_cons. cbn [split_first].
    destruct (Ascii.eqb d sep); [discriminate|].
    intros H. now rewrite (IH H).
Qed.

Lemma contains_append (c : ascii) (a b : string) :
  contains c (a +:+ b) = contains c a || contains c b.
Proof.
  induction a as [|d r IH]; [reflexivity|].
  rewrite append_cons. cbn [contains].
  destruct (Ascii.eqb d c); [reflexivity | exact IH].
Qed.

(** The query of a path made of a part without ['?'] and ['#'], a
    ['?'] and a text without ['#'] is that text. *)
Lemma query_component_append (base query : string) :
  contains "?" base = false -> contains "#" base = false ->
  contains "#" query = false ->
  query_component (base +:+ String "?" query) = query.
Proof.
  intros Hq Hb Hf. unfold query_component.
  rewrite (split_first_none "#").
  - now rewrite split_first_append.
  - rewrite contains_append, Hb. cbn [contains]. exact Hf.
Qed.

Lemma foldl_add_pair_lookup (pairs : list (string * string))
    (d : gmap string (list string)) (name : string) :
  foldl add_pair d pairs !! name =
  match snd <$> filter (fun kv => fst kv = name) pairs with
  | [] => d !! name
  | values => Some (default [] (d !! name) ++ values)
  end.
Proof.
  revert d. induction pairs as [|[n v] rest IH]; intros d; [reflexivity|].
  cbn [foldl]. rewrite IH, filter_cons. cbn [fst].
  destruct (decide (n = name)) as [->|Hne].
  - assert (add_pair d (name, v) !! name = Some (default [] (d !! name) ++ [v])) as ->.
    { unfold add_pair. destruct (d !! name) eqn:E; now rewrite lookup_insert_eq. }
    cbn [fmap list_fmap snd default].
    destruct (snd <$> filter _ rest); [reflexivity|].
    unfold id. now rewrite <- app_assoc.
  - assert (add_pair d (n, v) !! name = d !! name) as ->; [|reflexivity].
    unfold add_pair. destruct (d !! n); now rewrite lookup_insert_ne.
Qed.

(** [parse_qs] maps a name to the values it is paired with, in the
    order of the query. *)
Lemma parse_qs_lookup (qs name : string) :
  parse_qs qs !! name = values_of name (parse_qsl qs).
Proof.
  unfold parse_qs, values_of. rewrite foldl_add_pair_lookup, lookup_empty.
  now destruct (snd <$> filter _ (parse_qsl qs)).
Qed.

(** ** Random strings *)

Lemma secrets_choice_in (seq : list ascii) (raw : nat) :
  seq <> [] -> In (secrets_choice seq raw) seq.
Proof.
  intros H. unfold secrets_choice. apply nth_In.
  apply Nat.mod_upper_bound. destruct seq; [congruence | discriminate].
Qed.

Lemma random_chars_length (count : nat) (g : Rng) :
  List.length (fst (random_chars count g)) = count.
Proof.
  revert g. induction count as [|count IH]; intros g; cbn [random_chars]; [reflexivity|].
  specialize (IH (mkRng (draws g) (S (used g)))).
  destruct (random_chars count _) as [cs g']. cbn [fst] in *.
  cbn [List.length]. now rewrite IH.
Qed.

Lemma random_chars_alphabet (count : nat) (g : Rng) :
  Forall (fun c => In c (list_ascii_of_string _SECRETS_ALPHABET))
         (fst (random_chars count g)).
Proof.
  revert g. induction count as [|count IH]; intros g; cbn [random_chars].
  - constructor.
  - specialize (IH (mkRng (draws g) (S (used g)))).
    destruct (random_chars count _) as [cs g']. cbn [fst] in *.
    constructor; [|exact IH].
    apply secrets_choice_in. discriminate.
Qed.

(** Reading entropy only moves the position in it. *)
Lemma random_chars_rng (count : nat) (g : Rng) :
  snd (random_chars count g) = mkRng (draws g) (count + used g).
Proof.
  revert g. induction count as [|count IH]; intros g; cbn [random_chars].
  - now destruct g.
  - specialize (IH (mkRng (draws g) (S (used g)))).
    destruct (random_chars count _) as [cs g']. cbn [fst snd draws used] in *.
    rewrite IH. f_equal. lia.
Qed.

Lemma string_of_list_ascii_length (cs : list ascii) :
  String.length (string_of_list_ascii cs) = List.length cs.
Proof. induction cs as [|c cs IH]; cbn; [reflexivity | now rewrite IH]. Qed.

Lemma random_string_length (n : Z) (g : Rng) :
  String.length (fst (random_string n g)) = Z.to_nat n.
Proof.
  unfold random_string.
  pose proof (random_chars_length (Z.to_nat n) g) as H.
  destruct (random_chars (Z.to_nat n) g) as [cs g']. cbn [fst] in *.
  now rewrite string_of_list_ascii_length.
Qed.

Lemma random_string_alphabet (n : Z) (g : Rng) :
  Forall (fun c => In c (list_ascii_of_string _SECRETS_ALPHABET))
         (list_ascii_of_string (fst (random_string n g))).
Proof.
  unfold random_string.
  pose proof (random_chars_alphabet (Z.to_nat n) g) as H.
  destruct (random_chars (Z.to_nat n) g) as [cs g']. cbn [fst] in *.
  now rewrite list_ascii_of_string_of_list_ascii.
Qed.

Lemma alphabet_unambiguous :
  Forall (fun c => ~ In c ["0"; "1"; "O"; "l"; "i"; "o"]%char)
         (list_ascii_of_string _SECRETS_ALPHABET).
Proof.
  unfold _SECRETS_ALPHABET. cbn [list_ascii_of_string].
  repeat (constructor; [cbn [In]; intuition discriminate|]). constructor.
Qed.

(** C6 (amended).  The state token of a client is 20 characters long
    and each of its characters belongs to [_SECRETS_ALPHABET], which
    has none of [0], [1], [O] and [l] (nor [i] and [o]), but which does
    contain the capital letter [I]. *)
Theorem state_token_alphabet
    (client_id owner_id client_secret : string) (g : Rng) :
  let token := state_token (fst (MonzoClient_init client_id owner_id client_secret g)) in
  String.length token = 20%nat /\
  Forall (fun c => In c (list_ascii_of_string _SECRETS_ALPHABET) /\
                   ~ In c ["0"; "1"; "O"; "l"; "i"; "o"]%char)
         (list_ascii_of_string token) /\
  In "I"%char (list_ascii_of_string _SECRETS_ALPHABET).
Proof.
  unfold MonzoClient_init.
  pose proof (random_string_length 20 g) as Hlen.
  pose proof (random_string_alphabet 20 g) as Hin.
  destruct (random_string 20 g) as [token g']. cbn [fst state_token] in *.
  split; [exact Hlen|]. split.
  - eapply Forall_impl; [exact Hin|].
    intros c Hc. split; [exact Hc|].
    pose proof alphabet_unambiguous as Hu.
    rewrite Forall_forall in Hu. apply Hu. now apply list_elem_of_In.
  - cbn. tauto.
Qed.

(** ** Responses and errors *)

Lemma error_map_lookup (status : Z) :
  default MonzoAPIError (error_map !! status) = dedicated_error_class status.
Proof.
  unfold dedicated_error_class.
  repeat match goal with
         | |- context [(status =? ?k)%Z] =>
             destruct (Z.eqb_spec status k) as [->|?]; [now vm_compute|]
         end.
  unfold error_map. cbn [list_to_map foldr fst snd].
  rewrite !lookup_insert_ne by congruence. now rewrite lookup_empty.
Qed.

(** C8.  [_handle_response] returns the response unchanged when its
    status is in [200, 300) and raises otherwise; what it raises is the
    class of the status, its own for each of 400, 401, 403, 404, 405,
    406, 429, 500 and 504 and [MonzoAPIError] for every other status,
    with the status and the body in the message. *)
Theorem handle_response_status (response : HttpResponse) :
  let status := status_code response in
  (if decide (200 <= status < 300)%Z
   then _handle_response response = Ok response
   else _handle_response response =
        Raise (MonzoError (dedicated_error_class status)
                 ("Error fetching request: (" +:+ pretty status
                  +:+ "): " +:+ text response))) /\
  dedicated_error_class 400 = MonzoBadRequestError /\
  dedicated_error_class 401 = MonzoUnauthorizedError /\
  dedicated_error_class 403 = MonzoForbiddenError /\
  dedicated_error_class 404 = MonzoNotFoundError /\
  dedicated_error_class 405 = MonzoMethodNotAllowedError /\
  dedicated_error_class 406 = MonzoNotAcceptableError /\
  dedicated_error_class 429 = MonzoTooManyRequestsError /\
  dedicated_error_class 500 = MonzoInternalServerError /\
  dedicated_error_class 504 = MonzoGatewayTimeoutError /\
  (status ∉ [400; 401; 403; 404; 405; 406; 429; 500; 504]%Z ->
   dedicated_error_class status = MonzoAPIError).
Proof.
  intros status. split; [|repeat (split; [reflexivity|])].
  - unfold _handle_response. fold status. rewrite error_map_lookup.
    destruct (decide (200 <= status < 300)%Z) as [Hin|Hout].
    + destruct (Z.ltb_spec status 200); [lia|].
      rewrite Z.geb_leb. destruct (Z.leb_spec 300 status); [lia|]. reflexivity.
    + destruct (Z.ltb_spec status 200); [reflexivity|].
      rewrite Z.geb_leb. destruct (Z.leb_spec 300 status); [reflexivity | lia].
  - intros Hnot. unfold dedicated_error_class.
    repeat match goal with
           | |- context [(status =? ?k)%Z] =>
               destruct (Z.eqb_spec status k) as [Heq|?];
               [exfalso; apply Hnot; rewrite Heq; set_solver|]
           end.
    reflexivity.
Qed.

(** ** Pots and the dedupe token *)

Lemma requests_of_snoc (log : list Effect) (request : HttpRequest) :
  requests_of (log ++ [Http request]) = requests_of log ++ [request].
Proof. unfold requests_of. now rewrite omap_app. Qed.

Lemma requests_of_browser (log : list Effect) (url : string) :
  requests_of (log ++ [OpenBrowser url]) = requests_of log.
Proof. unfold requests_of. rewrite omap_app. cbn. now rewrite app_nil_r. Qed.

Lemma put_effects (self : MonzoClient) (path : string)
    (data : list (string * FormValue)) (log : list Effect) :
  snd (put self path data log) =
  log ++ [Http {| method := PUT; url := "https://api.monzo.com/" +:+ path;
                   data := data; headers := [("Authorization", bearer self)] |}].
Proof. reflexivity. Qed.

Lemma deposit_into_pot_sent (cls : MonzoClientClass) (self : MonzoClient)
    (pot_id source_account_id : string) (amount : Z) (dedupe_id : option string)
    (log : list Effect) :
  sent_dedupe_id (snd (deposit_into_pot cls self pot_id source_account_id
                         amount dedupe_id log))
  = Some (FStr (default (deposit_into_pot_default cls) dedupe_id)).
Proof.
  unfold deposit_into_pot.
  match goal with |- context [put ?s ?p ?d ?e] =>
    pose proof (put_effects s p d e) as H; destruct (put s p d e) as [[r|x] log']
  end; cbn [snd] in *; subst log';
    unfold sent_dedupe_id; now rewrite requests_of_snoc, last_snoc.
Qed.

Lemma withdraw_from_pot_sent (cls : MonzoClientClass) (self : MonzoClient)
    (pot_id destination_account_id : string) (amount : Z) (dedupe_id : option string)
    (log : list Effect) :
  sent_dedupe_id (snd (withdraw_from_pot cls self pot_id destination_account_id
                         amount dedupe_id log))
  = Some (FStr (default (withdraw_from_pot_default cls) dedupe_id)).
Proof.
  unfold withdraw_from_pot.
  match goal with |- context [put ?s ?p ?d ?e] =>
    pose proof (put_effects s p d e) as H; destruct (put s p d e) as [[r|x] log']
  end; cbn [snd] in *; subst log';
    unfold sent_dedupe_id; now rewrite requests_of_snoc, last_snoc.
Qed.

(** C7.  The default [dedupe_id] of [deposit_into_pot], and that of
    [withdraw_from_pot], is one random string of 20 characters drawn
    when the class body runs; two calls of the same method that leave
    [dedupe_id] out, by any clients, with any arguments and at any
    time, send that same value, and a call sends another value only
    when the caller supplies it. *)
Theorem dedupe_id_default_drawn_once
    (g : Rng) (self1 self2 : MonzoClient) (pot1 pot2 account1 account2 : string)
    (amount1 amount2 : Z) (log1 log2 : list Effect) (supplied : string) :
  let cls := fst (MonzoClient_class g) in
  deposit_into_pot_default cls = fst (random_string 20 g) /\
  withdraw_from_pot_default cls = fst (random_string 20 (snd (random_string 20 g))) /\
  sent_dedupe_id (snd (deposit_into_pot cls self1 pot1 account1 amount1 None log1))
  = Some (FStr (deposit_into_pot_default cls)) /\
  sent_dedupe_id (snd (deposit_into_pot cls self2 pot2 account2 amount2 None log2))
  = Some (FStr (deposit_into_pot_default cls)) /\
  sent_dedupe_id (snd (deposit_into_pot cls self1 pot1 account1 amount1 (Some supplied) log1))
  = Some (FStr supplied) /\
  sent_dedupe_id (snd (withdraw_from_pot cls self1 pot1 account1 amount1 None log1))
  = Some (FStr (withdraw_from_pot_default cls)) /\
  sent_dedupe_id (snd (withdraw_from_pot cls self2 pot2 account2 amount2 None log2))
  = Some (FStr (withdraw_from_pot_default cls)) /\
  sent_dedupe_id (snd (withdraw_from_pot cls self1 pot1 account1 amount1 (Some supplied) log1))
  = Some (FStr supplied).
Proof.
  intros cls. split; [|split].
  - subst cls. unfold MonzoClient_class.
    destruct (random_string 20 g) as [d1 g1]. now destruct (random_string 20 g1).
  - subst cls. unfold MonzoClient_class.
    destruct (random_string 20 g) as [d1 g1]. cbn [snd].
    now destruct (random_string 20 g1).
  - rewrite !deposit_into_pot_sent, !withdraw_from_pot_sent. repeat split.
Qed.

(** ** The handshake *)

(** The body of the token request that [authenticate] builds from the
    values [codes] found under ["code"]. *)
Lemma authenticate_exchange (self : MonzoClient) (sched : list Event)
    (late : list Op) (log : list Effect)
    (parameters : gmap string (list string)) (codes : list string) :
  fst (wait_for_call sched late (OAuthServer_init REDIRECT_PORT))
  = Returned (Some parameters) ->
  parameters !! "code" = Some codes ->
  parameters !! "state" = Some [state_token self] ->
  requests_of (snd (authenticate self sched late log)) =
  requests_of log ++
  [{| method := POST;
      url := "https://api.monzo.com/oauth2/token";
      data := [("grant_type", FStr "authorization_code");
               ("client_id", FStr (client_id self));
               ("client_secret", FStr (client_secret self));
               ("redirect_uri", FStr redirect_uri);
               ("code", FList codes)];
      headers := [] |}].
Proof.
  intros Hwait Hcode Hstate. unfold authenticate.
  rewrite Hwait, Hcode, Hstate. cbn [List.length Nat.eqb negb].
  rewrite bool_decide_false by (intros H; now apply H).
  destruct (json_access_token _); cbn [snd];
    now rewrite requests_of_snoc, requests_of_browser.
Qed.

(** C3.  What [authenticate] sends under ["code"] is the list of all
    the values of the [code] parameter, not one string: for the
    callback [?code=A&code=B&state=abc12XYZ] of a client whose state
    token is [abc12XYZ] the token request carries both values, and for
    [?code=AUTHCODE1&state=abc12XYZ] it carries the one-element list. *)
Theorem authenticate_sends_code_list (log : list Effect) :
  let self := {| client_id := "id"; owner_id := "owner"; client_secret := "secret";
                 access_token := None; account_id := None;
                 state_token := "abc12XYZ" |} in
  field "code" <$>
    requests_of (snd (authenticate self
      [Request "/monzo_callback?code=A&code=B&state=abc12XYZ"] [] []))
  = [Some (FList ["A"; "B"])] /\
  field "code" <$>
    requests_of (snd (authenticate self
      [Request "/monzo_callback?code=AUTHCODE1&state=abc12XYZ"] [] []))
  = [Some (FList ["AUTHCODE1"])].
Proof.
  intros self. split.
  - rewrite (authenticate_exchange self _ _ _
               (parse_qs "code=A&code=B&state=abc12XYZ") ["A"; "B"]);
      [reflexivity | reflexivity | now rewrite parse_qs_lookup
                                 | now rewrite parse_qs_lookup].
  - rewrite (authenticate_exchange self _ _ _
               (parse_qs "code=AUTHCODE1&state=abc12XYZ") ["AUTHCODE1"]);
      [reflexivity | reflexivity | now rewrite parse_qs_lookup
                                 | now rewrite parse_qs_lookup].
Qed.

(** C5.  When the callback parameters have a [code] and their [state]
    is absent, has more than one value, or has one value that is not
    the state token of the client, [authenticate] raises, leaves the
    client (and so its access token) as it was, and has done nothing
    but open the browser: no request was sent. *)
Theorem authenticate_rejects_bad_state (self : MonzoClient) (sched : list Event)
    (late : list Op) (log : list Effect) (parameters : gmap string (list string)) :
  fst (wait_for_call sched late (OAuthServer_init REDIRECT_PORT))
  = Returned (Some parameters) ->
  is_Some (parameters !! "code") ->
  (parameters !! "state" = None \/
   (exists values, parameters !! "state" = Some values /\ (1 < List.length values)%nat) \/
   (exists value, parameters !! "state" = Some [value] /\ value <> state_token self)) ->
  (exists e, authenticate self sched late log
             = (Raised e, self, log ++ [OpenBrowser (authorization_url self)])) /\
  access_token (snd (fst (authenticate self sched late log))) = access_token self /\
  requests_of (snd (authenticate self sched late log)) = requests_of log.
Proof.
  intros Hwait [codes Hcode] Hstate.
  assert (exists e, authenticate self sched late log
                    = (Raised e, self, log ++ [OpenBrowser (authorization_url self)]))
    as [e He].
  { unfold authenticate. rewrite Hwait, Hcode.
    destruct Hstate as [-> | [(values & -> & Hlen) | (value & -> & Hne)]].
    - eauto.
    - destruct (Nat.eqb_spec (List.length values) 1); [lia|]. cbn [negb]. eauto.
    - cbn [List.length Nat.eqb negb].
      rewrite bool_decide_true by congruence. eauto. }
  rewrite He. cbn [fst snd]. split; [eauto|]. split; [reflexivity|].
  apply requests_of_browser.
Qed.

(** C10.  When the callback parameters have no [code], [authenticate]
    raises the [KeyError] of that subscript, whatever the [state]
    parameter is, and sends no request. *)
Theorem authenticate_missing_code (self : MonzoClient) (sched : list Event)
    (late : list Op) (log : list Effect) (parameters : gmap string (list string)) :
  fst (wait_for_call sched late (OAuthServer_init REDIRECT_PORT))
  = Returned (Some parameters) ->
  parameters !! "code" = None ->
  authenticate self sched late log
  = (Raised (KeyError "code"), self, log ++ [OpenBrowser (authorization_url self)]).
Proof.
  intros Hwait Hcode. unfold authenticate. now rewrite Hwait, Hcode.
Qed.

(** * Further properties *)

(** ** The server *)

Lemma run_ops_app (ops1 ops2 : list Op) (s : OAuthServer) :
  run_ops (ops1 ++ ops2) s = run_ops ops2 (run_ops ops1 s).
Proof. unfold run_ops. apply foldl_app. Qed.

Lemma run_ops_stop_cancels (ops : list Op) (s : OAuthServer) :
  In CallStop ops -> _cancelled (run_ops ops s) = true.
Proof.
  intros Hin. apply in_split in Hin as (before & after & ->).
  rewrite run_ops_app. cbn [run_ops foldl apply_op].
  pose proof (flags_le_run_ops after (stop (run_ops before s))) as [_ H].
  exact H.
Qed.

Lemma serve_idle (n : nat) (rest : list Event) (s : OAuthServer) :
  loop_breaks s = false ->
  serve (repeat Idle n ++ rest) s = serve rest s.
Proof.
  intros H. induction n as [|n IH]; [reflexivity|].
  cbn [repeat app serve]. now rewrite H.
Qed.

Lemma idle_polls_block (n : nat) (late : list Op) (s : OAuthServer) :
  loop_breaks s = false ->
  wait_for_call (repeat Idle n) late s = (Blocked, s).
Proof.
  intros H. unfold wait_for_call, wait_loop. rewrite H.
  rewrite <- (app_nil_r (repeat Idle n)), serve_idle by exact H.
  reflexivity.
Qed.

(** X1.  Timeouts are not errors: while only timeouts happen, a
    server with neither flag set keeps waiting and is not changed. *)
Theorem wait_for_call_idle_blocks (n : nat) (late : list Op) (s : OAuthServer) :
  loop_breaks s = false ->
  wait_for_call (repeat Idle n) late s = (Blocked, s).
Proof. apply idle_polls_block. Qed.

Lemma first_request_served (n : nat) (p : string) (rest : list Event)
    (s : OAuthServer) :
  loop_breaks s = false ->
  wait_for_call (repeat Idle n ++ Request p :: rest) [] s
  = (match urlparse_query p with
     | Ok query => Returned (Some (parse_qs query))
     | Raise e => Raised e
     end, handler_callback p s).
Proof.
  intros H.
  assert (_cancelled s = false) as Hc.
  { unfold loop_breaks in H. destruct (_completed s), (_cancelled s); congruence. }
  unfold wait_for_call, wait_loop. rewrite H.
  rewrite serve_idle by exact H.
  cbn [serve loop_breaks handler_callback _completed run_ops foldl].
  unfold wait_epilogue. cbn [_cancelled _completed path handler_callback].
  rewrite Hc. now destruct (urlparse_query p).
Qed.

(** X2.  The loop serves one request: after any number of timeouts the
    first request served ends the wait and its path is the one parsed:
    the call returns the parameters of the query of that path, or
    raises the exception with which [urlparse] rejects the path; what
    the schedule holds after it is not looked at. *)
Theorem wait_for_call_first_request (n : nat) (p : string) (rest : list Event)
    (s : OAuthServer) :
  loop_breaks s = false ->
  wait_for_call (repeat Idle n ++ Request p :: rest) [] s
  = (match urlparse_query p with
     | Ok query => Returned (Some (parse_qs query))
     | Raise e => Raised e
     end, handler_callback p s).
Proof. apply first_request_served. Qed.

(** X3.  Cancellation wins over completion: when [stop] is called
    after the loop has ended and before [wait_for_call] takes the lock
    again, the call returns [None], also when a request had been
    captured. *)
Theorem wait_for_call_late_stop (sched : list Event) (late : list Op)
    (s0 exited : OAuthServer) :
  wait_loop sched s0 = (true, exited) ->
  In CallStop late ->
  fst (wait_for_call sched late s0) = Returned None.
Proof.
  intros Hloop Hin. unfold wait_for_call. rewrite Hloop. cbn [fst].
  unfold wait_epilogue. now rewrite (run_ops_stop_cancels late exited Hin).
Qed.

(** X4.  A [wait_for_call] that has returned or raised can be repeated:
    a second call, whatever happens around it, gives the same outcome
    at once and leaves the server as it is. *)
Theorem wait_for_call_again (sched sched' : list Event) (late : list Op)
    (s0 : OAuthServer) :
  fst (wait_for_call sched late s0) <> Blocked ->
  wait_for_call sched' [] (snd (wait_for_call sched late s0))
  = wait_for_call sched late s0.
Proof.
  unfold wait_for_call at 1 3 4.
  destruct (wait_loop sched s0) as [[|] exited] eqn:Hloop; cbn [fst snd];
    [intros _ | intros H; now elim H].
  pose proof (wait_for_call_never_neither sched late s0 exited Hloop) as Hb.
  unfold wait_for_call, wait_loop. now rewrite Hb.
Qed.

Lemma serve_request_exits (sched : list Event) (s : OAuthServer) (p : string) :
  In (Request p) sched -> fst (serve sched s) = true.
Proof.
  revert s. induction sched as [|e sched IH]; intros s Hin; [destruct Hin|].
  cbn [serve]. destruct e as [o|q|].
  - destruct Hin as [Heq|Hin]; [discriminate | now apply IH].
  - reflexivity.
  - destruct (loop_breaks s); [reflexivity|].
    destruct Hin as [Heq|Hin]; [discriminate | now apply IH].
Qed.

(** X5.  A served request ends the wait: when the schedule holds a
    request, [wait_for_call] does not stay blocked. *)
Theorem wait_for_call_request_returns (sched : list Event) (late : list Op)
    (s0 : OAuthServer) (p : string) :
  In (Request p) sched ->
  fst (wait_for_call sched late s0) <> Blocked.
Proof.
  intros Hin. unfold wait_for_call, wait_loop.
  destruct (loop_breaks s0).
  - cbn. now destruct (wait_epilogue _).
  - pose proof (serve_request_exits sched s0 p Hin) as H.
    destruct (serve sched s0) as [b exited]. cbn [fst] in H. subst b.
    cbn. now destruct (wait_epilogue _).
Qed.

Lemma serve_cancelled (sched : list Event) (s : OAuthServer) :
  _cancelled s = true ->
  (exists e, In e sched /\ forall o, e <> Other o) ->
  fst (serve sched s) = true /\ _cancelled (snd (serve sched s)) = true.
Proof.
  intros Hc Hex. split.
  - revert s Hc. induction sched as [|e sched IH]; intros s Hc.
    + destruct Hex as (e & [] & _).
    + cbn [serve]. destruct e as [o|q|].
      * apply IH.
        -- destruct Hex as (e & [<-|Hin] & Hne); [now elim (Hne o) | eauto].
        -- now destruct (flags_le_apply_op o s) as [_ H]; rewrite Hc in H.
      * reflexivity.
      * unfold loop_breaks. rewrite Hc. now destruct (_completed s).
  - destruct (flags_le_serve sched s) as [_ H]. now rewrite Hc in H.
Qed.

(** X6.  A [stop] from another thread is seen at the end of the poll in
    progress: when, after only timeouts, another thread calls [stop],
    the wait ends with the next timeout or request and the call returns
    [None], whatever else happened in between and whatever follows. *)
Theorem wait_for_call_stop_during_poll (n : nat) (between after : list Event)
    (e : Event) (late : list Op) (s : OAuthServer) :
  loop_breaks s = false ->
  (forall o, e <> Other o) ->
  fst (wait_for_call (repeat Idle n ++ Other CallStop :: between ++ e :: after)
         late s) = Returned None.
Proof.
  intros H He. unfold wait_for_call, wait_loop. rewrite H.
  rewrite serve_idle by exact H. cbn [serve apply_op].
  destruct (serve_cancelled (between ++ e :: after) (stop s) eq_refl) as [Hexit Hc].
  { exists e. split; [apply in_or_app; right; now left | exact He]. }
  destruct (serve (between ++ e :: after) (stop s)) as [b exited].
  cbn [fst snd] in *. subst b.
  destruct (flags_le_run_ops late exited) as [_ Hl]. rewrite Hc in Hl.
  cbn [Bool.le] in Hl. unfold wait_epilogue. now rewrite Hl.
Qed.

Lemma fixed_apply_op (o : Op) (s : OAuthServer) :
  _path (apply_op o s) = _path s /\ port (apply_op o s) = port s.
Proof. now destruct o. Qed.

Lemma fixed_run_ops (ops : list Op) (s : OAuthServer) :
  _path (run_ops ops s) = _path s /\ port (run_ops ops s) = port s.
Proof.
  revert s. induction ops as [|o ops IH]; intros s; [now split|].
  change (run_ops (o :: ops) s) with (run_ops ops (apply_op o s)).
  destruct (IH (apply_op o s)) as [-> ->].
  apply fixed_apply_op.
Qed.

Lemma fixed_serve (sched : list Event) (s : OAuthServer) :
  _path (snd (serve sched s)) = _path s /\ port (snd (serve sched s)) = port s.
Proof.
  revert s. induction sched as [|e sched IH]; intros s; [now split|].
  cbn [serve]. destruct e as [o|p|].
  - destruct (IH (apply_op o s)) as [-> ->]. apply fixed_apply_op.
  - destruct (loop_breaks (handler_callback p s)); cbn [snd]; [now split|].
    destruct (IH (handler_callback p s)) as [-> ->]. now split.
  - destruct (loop_breaks s); cbn [snd]; [now split | apply IH].
Qed.

Lemma fixed_run_call (c : Call) (s : OAuthServer) :
  _path (run_call c s) = _path s /\ port (run_call c s) = port s.
Proof.
  destruct c as [p| |sched late]; cbn [run_call]; [now split | now split |].
  unfold wait_for_call, wait_loop.
  destruct (loop_breaks s).
  - cbn [snd]. apply fixed_run_ops.
  - pose proof (fixed_serve sched s) as [Hp Hq].
    destruct (serve sched s) as [[|] s']; cbn [snd] in *; [|now split].
    destruct (fixed_run_ops late s') as [-> ->]. now split.
Qed.

(** X7.  The attribute [_path] that [__init__] sets to [None] is never
    written again, and the port never changes: the captured path lives
    in the attribute [path] only. *)
Theorem path_attribute_unused (calls : list Call) (port0 : Z) :
  _path (run_calls calls (OAuthServer_init port0)) = None /\
  port (run_calls calls (OAuthServer_init port0)) = port0.
Proof.
  assert (forall s, _path (run_calls calls s) = _path s /\
                    port (run_calls calls s) = port s) as H.
  { induction calls as [|c calls IH]; intros s; [now split|].
    change (run_calls (c :: calls) s) with (run_calls calls (run_call c s)).
    destruct (IH (run_call c s)) as [-> ->].
    apply fixed_run_call. }
  apply (H (OAuthServer_init port0)).
Qed.

(** ** Random strings of any length *)

(** X8.  [random_string(length)] has [length] characters, none when
    [length] is zero or negative, and all of them belong to
    [_SECRETS_ALPHABET]. *)
Theorem random_string_shape (n : Z) (g : Rng) :
  Z.of_nat (String.length (fst (random_string n g))) = Z.max n 0 /\
  Forall (fun c => In c (list_ascii_of_string _SECRETS_ALPHABET))
         (list_ascii_of_string (fst (random_string n g))).
Proof.
  split; [|apply random_string_alphabet].
  rewrite random_string_length. lia.
Qed.

Lemma random_chars_ext (count : nat) (f f' : nat -> nat) (u : nat) :
  (forall k, (u <= k)%nat -> f k = f' k) ->
  fst (random_chars count (mkRng f u)) = fst (random_chars count (mkRng f' u)).
Proof.
  revert u. induction count as [|count IH]; intros u H; [reflexivity|].
  cbn [random_chars draws used].
  specialize (IH (S u) (fun k Hk => H k (Nat.lt_le_incl _ _ Hk))).
  destruct (random_chars count (mkRng f (S u))) as [cs g1].
  destruct (random_chars count (mkRng f' (S u))) as [cs' g2].
  cbn [fst] in *. rewrite (H u (Nat.le_refl u)). now rewrite IH.
Qed.

Lemma secrets_choice_any (seq : list ascii) (c : ascii) :
  In c seq -> exists raw, secrets_choice seq raw = c.
Proof.
  intros Hin. destruct (In_nth seq c "000"%char Hin) as (i & Hi & Hnth).
  exists i. unfold secrets_choice. now rewrite Nat.mod_small.
Qed.

Lemma random_chars_any (cs : list ascii) (u : nat) :
  Forall (fun c => In c (list_ascii_of_string _SECRETS_ALPHABET)) cs ->
  exists f, fst (random_chars (List.length cs) (mkRng f u)) = cs.
Proof.
  revert u. induction cs as [|c cs IH]; intros u Hall.
  - exists (fun _ => 0%nat). reflexivity.
  - apply Forall_cons in Hall as [Hc Hall].
    destruct (secrets_choice_any _ c Hc) as [raw Hraw].
    destruct (IH (S u) Hall) as [f Hf].
    set (f' := fun k => if Nat.eqb k u then raw else f k).
    exists f'.
    assert (fst (random_chars (List.length cs) (mkRng f' (S u))) = cs) as Htail.
    { rewrite <- Hf at 2. apply random_chars_ext.
      intros k Hk. unfold f'. destruct (Nat.eqb_spec k u); [lia | reflexivity]. }
    cbn [List.length random_chars draws used].
    destruct (random_chars (List.length cs) (mkRng f' (S u))) as [cs1 g1].
    cbn [fst] in *. subst cs1. f_equal.
    unfold f'. now rewrite Nat.eqb_refl.
Qed.

Lemma list_ascii_of_string_length (s : string) :
  List.length (list_ascii_of_string s) = String.length s.
Proof. induction s as [|c s IH]; cbn; [reflexivity | now rewrite IH]. Qed.

(** X9.  [random_string] leaves no string out: every string made of
    characters of [_SECRETS_ALPHABET] is what [random_string] returns,
    for its length, on some entropy. *)
Theorem random_string_any (s : string) :
  Forall (fun c => In c (list_ascii_of_string _SECRETS_ALPHABET))
         (list_ascii_of_string s) ->
  exists g, fst (random_string (Z.of_nat (String.length s)) g) = s.
Proof.
  intros Hall. destruct (random_chars_any _ 0%nat Hall) as [f Hf].
  exists (mkRng f 0). unfold random_string.
  rewrite Nat2Z.id, <- list_ascii_of_string_length.
  destruct (random_chars _ (mkRng f 0)) as [cs g']. cbn [fst] in *.
  subst cs. apply string_of_list_ascii_of_string.
Qed.

(** ** The handshake as a whole *)

Lemma contains_false_iff (c : ascii) (s : string) :
  contains c s = false <-> ~ In c (list_ascii_of_string s).
Proof.
  induction s as [|d r IH]; cbn [contains list_ascii_of_string In]; [tauto|].
  destruct (Ascii.eqb_spec d c) as [->|Hne]; [split; [discriminate | tauto]|].
  rewrite IH. tauto.
Qed.

Lemma replace_plus_plain (s : string) :
  contains "+" s = false -> replace_plus s = s.
Proof.
  induction s as [|d r IH]; cbn [contains replace_plus]; [reflexivity|].
  destruct (Ascii.eqb d "+"); [discriminate|]. intros H. now rewrite IH.
Qed.

Lemma plain_spec (s : string) :
  plain s = true ->
  contains "&" s = false /\ contains "#" s = false /\
  contains "+" s = false /\ contains "%" s = false.
Proof.
  unfold plain.
  destruct (contains "&" s), (contains "#" s), (contains "+" s), (contains "%" s);
    cbn; intros H; try discriminate; auto.
Qed.

Lemma unquote_plain (s : string) :
  plain s = true -> unquote (replace_plus s) = s.
Proof.
  intros H. apply plain_spec in H as (_ & _ & Hplus & Hpct).
  rewrite replace_plus_plain by exact Hplus. unfold unquote. now rewrite Hpct.
Qed.

Lemma split_append (sep : ascii) (before after : string) :
  contains sep before = false ->
  split sep (before +:+ String sep after) = before :: split sep after.
Proof.
  induction before as [|d r IH]; cbn [contains].
  - intros _. rewrite append_nil. cbn [split]. now rewrite Ascii.eqb_refl.
  - rewrite append_cons. cbn [split].
    destruct (Ascii.eqb d sep); [discriminate|].
    intros H. now rewrite (IH H).
Qed.

Lemma split_none (sep : ascii) (s : string) :
  contains sep s = false -> split sep s = [s].
Proof.
  induction s as [|d r IH]; cbn [contains split]; [reflexivity|].
  destruct (Ascii.eqb d sep); [discriminate|].
  intros H. now rewrite (IH H).
Qed.

(** A field [name=value] with a plain, non-empty value. *)
Lemma parse_field_plain (name value : string) :
  contains "=" name = false -> plain name = true ->
  plain value = true -> value <> EmptyString ->
  parse_field (name +:+ String "=" value) = [(name, value)].
Proof.
  intros Heq Hname Hvalue Hne. unfold parse_field.
  rewrite split_first_append by exact Heq.
  rewrite bool_decide_false by exact Hne.
  now rewrite !unquote_plain.
Qed.

Lemma plain_alphabet (s : string) :
  Forall (fun c => In c (list_ascii_of_string _SECRETS_ALPHABET))
         (list_ascii_of_string s) ->
  plain s = true.
Proof.
  intros Hall. rewrite Forall_forall in Hall.
  assert (forall c, ~ In c (list_ascii_of_string _SECRETS_ALPHABET) ->
                    contains c s = false) as Hout.
  { intros c Hc. apply contains_false_iff. intros Hin.
    apply Hc, Hall. now apply list_elem_of_In. }
  unfold plain.
  rewrite !Hout; [reflexivity | | | |];
    cbn; intuition discriminate.
Qed.

Lemma state_token_plain (cid oid sec : string) (g : Rng) :
  let token := state_token (fst (MonzoClient_init cid oid sec g)) in
  plain token = true /\ token <> EmptyString.
Proof.
  unfold MonzoClient_init.
  pose proof (random_string_length 20 g) as Hlen.
  pose proof (random_string_alphabet 20 g) as Hin.
  destruct (random_string 20 g) as [token g']. cbn [fst state_token] in *.
  split; [now apply plain_alphabet|].
  intros ->. discriminate.
Qed.



Lemma contains_tail (c d : ascii) (r : string) :
  contains c (String d r) = false -> contains c r = false.
Proof. cbn [contains]. now destruct (Ascii.eqb d c). Qed.

Lemma contains_tail_false (c d : ascii) (r : string) :
  Ascii.eqb d c = false -> contains c r = false -> contains c (String d r) = false.
Proof. intros Hd Hr. cbn [contains]. now rewrite Hd. Qed.

Lemma contains_split_first_rest (c sep : ascii) (s before after : string) :
  split_first sep s = Some (before, after) ->
  contains c s = false -> contains c after = false.
Proof.
  revert before. induction s as [|d r IH]; intros before; cbn [split_first];
    [discriminate|].
  destruct (Ascii.eqb d sep).
  - intros [= <- <-]. apply contains_tail.
  - destruct (split_first sep r) as [[a b]|]; [|discriminate].
    intros [= <- <-] H. apply (IH a eq_refl), (contains_tail c d r H).
Qed.

Lemma split_first_found (sep : ascii) (s : string) :
  split_first sep s = None -> contains sep s = false.
Proof.
  induction s as [|d r IH]; cbn [split_first contains]; [reflexivity|].
  destruct (Ascii.eqb d sep); [discriminate|].
  destruct (split_first sep r) as [[a b]|]; [discriminate | exact IH].
Qed.

Lemma split_first_app_l (sep : ascii) (s t before after : string) :
  split_first sep s = Some (before, after) ->
  split_first sep (s +:+ t) = Some (before, after +:+ t).
Proof.
  revert before. induction s as [|d r IH]; intros before; cbn [split_first];
    [discriminate|].
  rewrite append_cons. cbn [split_first].
  destruct (Ascii.eqb d sep); [now intros [= <- <-]|].
  destruct (split_first sep r) as [[a b]|]; [|discriminate].
  intros [= <- <-]. now rewrite (IH a eq_refl).
Qed.

Lemma split_first_app_r (sep : ascii) (s t : string) :
  contains sep s = false ->
  split_first sep (s +:+ t)
  = match split_first sep t with
    | Some (a, b) => Some (s +:+ a, b)
    | None => None
    end.
Proof.
  induction s as [|d r IH]; cbn [contains].
  - intros _. rewrite append_nil. destruct (split_first sep t) as [[a b]|]; reflexivity.
  - rewrite append_cons. cbn [split_first].
    destruct (Ascii.eqb d sep); [discriminate|].
    intros H. rewrite (IH H).
    destruct (split_first sep t) as [[a b]|]; reflexivity.
Qed.

Lemma all_in_append (chars a b : string) :
  all_in chars (a +:+ b) = all_in chars a && all_in chars b.
Proof.
  induction a as [|d r IH]; [reflexivity|].
  rewrite append_cons. cbn [all_in]. now rewrite IH, andb_assoc.
Qed.

Lemma all_in_contains (chars s : string) (c : ascii) :
  all_in chars s = true -> contains c chars = false -> contains c s = false.
Proof.
  intros Hall Hc. induction s as [|d r IH]; [reflexivity|].
  cbn [all_in] in Hall. apply andb_prop in Hall as [Hd Hr].
  cbn [contains]. destruct (Ascii.eqb_spec d c) as [->|]; [congruence | auto].
Qed.


(** The scheme step does not reach beyond the first ['?']. *)
Lemma strip_scheme_query (base query : string) :
  contains "?" base = false ->
  exists base',
    strip_scheme (base +:+ String "?" query) = base' +:+ String "?" query /\
    forall c, contains c base = false -> contains c base' = false.
Proof.
  intros Hq. unfold strip_scheme.
  destruct (split_first ":" base) as [[before rest]|] eqn:E.
  - rewrite (split_first_app_l ":" base _ before rest E).
    assert (forall c, contains c base = false -> contains c rest = false) as Hrest
      by (intros c; now apply (contains_split_first_rest c ":" base before rest)).
    repeat match goal with
           | |- context [if ?b then _ else _] => destruct b
           end;
      first [ exists base; split; [reflexivity | now auto]
            | exists rest; split; [reflexivity | exact Hrest] ].
  - rewrite (split_first_app_r ":" base _ (split_first_found _ _ E)).
    cbn [split_first]. change (Ascii.eqb "?" ":") with false. cbv iota.
    destruct (split_first ":" query) as [[a b]|];
      [|exists base; split; [reflexivity | now auto]].
    assert (all_in scheme_chars (base +:+ String "?" a) = false) as Hscheme.
    { rewrite all_in_append. cbn [all_in].
      change (contains "?" scheme_chars) with false. apply andb_false_r. }
    rewrite Hscheme.
    repeat match goal with
           | |- context [if ?b then _ else _] => destruct b eqn:?
           end;
      try (exists base; split; [reflexivity | now auto]).
    exfalso.
    match goal with
    | H : bool_decide (_ = "http") = true |- _ =>
        apply bool_decide_eq_true in H; rewrite H in Hscheme
    end.
    discriminate.
Qed.

Lemma splitnetloc_keeps (c : ascii) (s : string) :
  contains c s = false ->
  contains c (fst (splitnetloc s)) = false /\
  contains c (snd (splitnetloc s)) = false.
Proof.
  induction s as [|d r IH]; [now split|].
  intros H. cbn [splitnetloc].
  destruct (contains d "/?#"); [now split|].
  destruct (IH (contains_tail c d r H)) as [Hn Hr].
  destruct (splitnetloc r) as [netloc rest]. cbn [fst snd] in *.
  split; [|exact Hr]. cbn [contains] in *.
  now destruct (Ascii.eqb d c).
Qed.

Lemma splitnetloc_append (base query : string) :
  splitnetloc (base +:+ String "?" query)
  = (fst (splitnetloc base), snd (splitnetloc base) +:+ String "?" query).
Proof.
  induction base as [|d r IH]; [reflexivity|].
  rewrite append_cons. cbn [splitnetloc].
  destruct (contains d "/?#") eqn:E.
  - cbn [fst snd]. now rewrite append_cons.
  - rewrite IH. now destruct (splitnetloc r).
Qed.


(** The query of [base?query] when [base] has no bracket. *)
Lemma urlparse_query_append (base query : string) :
  contains "?" base = false -> contains "#" base = false ->
  contains "[" base = false -> contains "]" base = false ->
  contains "#" query = false ->
  urlparse_query (base +:+ String "?" query) = Ok query.
Proof.
  intros Hq Hh Hl Hr Hf. unfold urlparse_query.
  destruct (strip_scheme_query base query Hq) as (base' & -> & Hkeep).
  assert (Ok (query_component (base' +:+ String "?" query)) = Ok query
          :> PyResult string) as Hdone
    by (rewrite query_component_append; auto).
  destruct base' as [|a [|b after]].
  - rewrite append_nil in *. destruct query; exact Hdone.
  - rewrite !append_cons, append_nil in *. destruct (Ascii.eqb a "/"); exact Hdone.
  - rewrite !append_cons in *.
    destruct (Ascii.eqb a "/" && Ascii.eqb b "/"); [|exact Hdone].
    assert (forall c, contains c base = false -> contains c after = false) as Hafter
      by (intros c H; eapply contains_tail, contains_tail, Hkeep, H).
    rewrite splitnetloc_append.
    destruct (splitnetloc_keeps _ after (Hafter _ Hl)) as [Hnl _].
    destruct (splitnetloc_keeps _ after (Hafter _ Hr)) as [Hnr _].
    destruct (splitnetloc_keeps _ after (Hafter _ Hq)) as [_ Hrq].
    destruct (splitnetloc_keeps _ after (Hafter _ Hh)) as [_ Hrh].
    rewrite Hnl, Hnr. cbn [andb orb].
    now rewrite query_component_append.
Qed.

(** What [wait_for_call] gives to [authenticate] once the loop has
    served the request [p] as its first one, with no other thread at
    work. *)
Lemma authenticate_served (n : nat) (p : string) (rest : list Event) :
  fst (wait_for_call (repeat Idle n ++ Request p :: rest) []
         (OAuthServer_init REDIRECT_PORT))
  = match urlparse_query p with
    | Ok query => Returned (Some (parse_qs query))
    | Raise e => Raised e
    end.
Proof. now rewrite first_request_served. Qed.

(** X10.  [authenticate] has no timeout of its own: while no request
    reaches the port it keeps waiting, having opened the browser and
    sent nothing. *)
Theorem authenticate_waits (self : MonzoClient) (n : nat) (log : list Effect) :
  authenticate self (repeat Idle n) [] log
  = (Blocked, self, log ++ [OpenBrowser (authorization_url self)]).
Proof.
  unfold authenticate.
  now rewrite (idle_polls_block n [] (OAuthServer_init REDIRECT_PORT)).
Qed.



(** X13.  [authenticate] changes nothing of the client but the access
    token, and the access token only when it returns [True]; in
    particular the state token stays the one drawn by [__init__], from
    one attempt to the next. *)
Theorem authenticate_client (self : MonzoClient) (sched : list Event)
    (late : list Op) (log : list Effect) :
  let result := fst (fst (authenticate self sched late log)) in
  let self' := snd (fst (authenticate self sched late log)) in
  (self' = self /\ result <> Returned true) \/
  (exists token, self' = with_access_token token self /\ result = Returned true).
Proof.
  unfold authenticate.
  destruct (fst (wait_for_call sched late _)) as [[parameters|]|e|];
    cbn [fst snd]; try (left; split; [reflexivity | discriminate]).
  destruct (parameters !! "code") as [codes|]; cbn [fst snd];
    try (left; split; [reflexivity | discriminate]).
  destruct (parameters !! "state") as [values|]; cbn [fst snd];
    try (left; split; [reflexivity | discriminate]).
  destruct (negb _); cbn [fst snd];
    try (left; split; [reflexivity | discriminate]).
  destruct values as [|value values]; cbn [fst snd];
    try (left; split; [reflexivity | discriminate]).
  destruct (bool_decide _); cbn [fst snd];
    try (left; split; [reflexivity | discriminate]).
  destruct (json_access_token _) as [token|e]; cbn [fst snd].
  - right. now exists token.
  - left. split; [reflexivity | discriminate].
Qed.

Lemma append_assoc (a b c : string) : (a +:+ b) +:+ c = a +:+ (b +:+ c).
Proof.
  induction a as [|d r IH]; [reflexivity|].
  rewrite !append_cons. now rewrite IH.
Qed.

Lemma parse_qsl_last (name value : string) :
  contains "&" name = false -> contains "=" name = false -> plain name = true ->
  plain value = true -> value <> EmptyString ->
  parse_qsl (name +:+ String "=" value) = [(name, value)].
Proof.
  intros Hamp Heq Hname Hvalue Hne. unfold parse_qsl.
  rewrite split_none.
  - cbn [flat_map]. rewrite parse_field_plain by assumption. reflexivity.
  - rewrite contains_append, Hamp. cbn [contains orb Ascii.eqb].
    apply plain_spec in Hvalue as (H & _). exact H.
Qed.

Lemma parse_qsl_cons (name value rest : string) :
  contains "&" name = false -> contains "=" name = false -> plain name = true ->
  plain value = true -> value <> EmptyString ->
  parse_qsl (name +:+ String "=" (value +:+ String "&" rest))
  = (name, value) :: parse_qsl rest.
Proof.
  intros Hamp Heq Hname Hvalue Hne. unfold parse_qsl.
  change (name +:+ String "=" (value +:+ String "&" rest))
    with (name +:+ (String "=" EmptyString +:+ (value +:+ String "&" rest))).
  rewrite <- !append_assoc. rewrite split_append.
  - cbn [flat_map]. rewrite append_assoc.
    change (String "=" EmptyString +:+ value) with (String "=" value).
    rewrite parse_field_plain by assumption. reflexivity.
  - rewrite !contains_append, Hamp. cbn [contains orb Ascii.eqb].
    apply plain_spec in Hvalue as (H & _). exact H.
Qed.

Lemma redirect_uri_value : redirect_uri = "http://localhost:36453/monzo_callback".
Proof. reflexivity. Qed.

Lemma authorization_url_query (self : MonzoClient) :
  plain (client_id self) = true -> client_id self <> EmptyString ->
  plain (state_token self) = true -> state_token self <> EmptyString ->
  exists query,
    urlparse_query (authorization_url self) = Ok query /\
    parse_qsl query
    = [("client_id", client_id self);
       ("redirect_uri", "http://localhost:36453/monzo_callback");
       ("response_type", "code");
       ("state", state_token self)].
Proof.
  intros Hcid Hcid' Htok Htok'. eexists.
  unfold authorization_url. rewrite redirect_uri_value.
  change ("https://auth.monzo.com/" +:+ "?client_id=" +:+ client_id self +:+
          "&redirect_uri=" +:+ "http://localhost:36453/monzo_callback" +:+
          "&response_type=code" +:+ "&state=" +:+ state_token self)
    with ("https://auth.monzo.com/" +:+
          String "?" ("client_id" +:+ String "=" (client_id self +:+ String "&"
            ("redirect_uri" +:+ String "=" ("http://localhost:36453/monzo_callback"
               +:+ String "&" ("response_type" +:+ String "=" ("code" +:+ String "&"
                 ("state" +:+ String "=" (state_token self))))))))).
  destruct (plain_spec _ Hcid) as (_ & Hcid_hash & _).
  destruct (plain_spec _ Htok) as (_ & Htok_hash & _).
  split.
  - apply urlparse_query_append; try reflexivity.
    repeat (progress (rewrite ?contains_append; simpl)).
    now rewrite Hcid_hash, Htok_hash.
  - rewrite parse_qsl_cons by first [assumption | reflexivity].
    rewrite parse_qsl_cons by first [reflexivity | discriminate].
    rewrite parse_qsl_cons by first [reflexivity | discriminate].
    rewrite parse_qsl_last by first [assumption | reflexivity]. reflexivity.
Qed.

(** X14.  The authorization URL that [authenticate] opens, read back as
    a query string, carries exactly the client identifier, the redirect
    URI, [response_type=code] and the state token drawn by [__init__],
    provided the client identifier is not empty and has none of ['&'],
    ['#'], ['+'] and ['%'], which the code does not escape. *)
Theorem authorization_url_round_trip (cid oid sec : string) (g : Rng) :
  plain cid = true -> cid <> EmptyString ->
  let self := fst (MonzoClient_init cid oid sec g) in
  exists query,
    urlparse_query (authorization_url self) = Ok query /\
    parse_qsl query
    = [("client_id", cid);
       ("redirect_uri", "http://localhost:36453/monzo_callback");
       ("response_type", "code");
       ("state", state_token self)].
Proof.
  intros Hcid Hne self.
  destruct (state_token_plain cid oid sec g) as [Hplain Hnonempty].
  assert (client_id self = cid) as Hid.
  { subst self. unfold MonzoClient_init. now destruct (random_string 20 g). }
  destruct (authorization_url_query self) as (query & Hquery & Hpairs);
    try assumption; try (now rewrite Hid).
  exists query. split; [exact Hquery | now rewrite Hpairs, Hid].
Qed.

(** X15.  The handshake end to end: when the first request served has
    the path [/monzo_callback?code=CODE&state=TOKEN] with [TOKEN] the
    state token of the client, [authenticate] posts the token request
    with that code and, when the response yields an access token,
    stores it and returns [True]; when reading the response raises,
    that exception goes to the caller and the client is unchanged.  The
    code and the state token are not empty and have none of ['&'],
    ['#'], ['+'] and ['%']. *)
Theorem authenticate_end_to_end (self : MonzoClient) (code : string) (n : nat)
    (rest : list Event) (log : list Effect) :
  plain code = true -> code <> EmptyString ->
  plain (state_token self) = true -> state_token self <> EmptyString ->
  let p := "/monzo_callback?code=" +:+ code +:+ "&state=" +:+ state_token self in
  let log' := log ++ [OpenBrowser (authorization_url self)] in
  let request := token_request self [code] in
  authenticate self (repeat Idle n ++ Request p :: rest) [] log =
  match json_access_token (network log' request) with
  | Ok token => (Returned true, with_access_token token self, log' ++ [Http request])
  | Raise e => (Raised e, self, log' ++ [Http request])
  end.
Proof.
  intros Hcode Hcode' Htok Htok' p log' request.
  set (query := "code" +:+ String "=" (code +:+ String "&"
                  ("state" +:+ String "=" (state_token self)))).
  assert (urlparse_query p = Ok query) as Hquery.
  { subst p query.
    change ("/monzo_callback?code=" +:+ code +:+ "&state=" +:+ state_token self)
      with ("/monzo_callback" +:+
            String "?" ("code" +:+ String "=" (code +:+ String "&"
              ("state" +:+ String "=" (state_token self))))).
    destruct (plain_spec _ Hcode) as (_ & Hcode_hash & _).
    destruct (plain_spec _ Htok) as (_ & Htok_hash & _).
    apply urlparse_query_append; try reflexivity.
    repeat (progress (rewrite ?contains_append; simpl)).
    now rewrite Hcode_hash, Htok_hash. }
  assert (parse_qsl query = [("code", code); ("state", state_token self)])
    as Hpairs.
  { subst query. rewrite parse_qsl_cons by first [assumption | reflexivity].
    now rewrite parse_qsl_last by first [assumption | reflexivity]. }
  unfold authenticate. rewrite authenticate_served, Hquery.
  rewrite !parse_qs_lookup, Hpairs.
  change (values_of "code" [("code", code); ("state", state_token self)])
    with (Some [code]).
  change (values_of "state" [("code", code); ("state", state_token self)])
    with (Some [state_token self]).
  cbn [List.length Nat.eqb negb].
  rewrite bool_decide_false by (intros H; now apply H).
  fold log'. fold request. now destruct (json_access_token _).
Qed.

(** ** The parameters of a captured path *)

Lemma unreserved_plain (s : string) :
  all_in unreserved s = true ->
  plain s = true /\ contains "=" s = false /\
  contains "&" s = false /\ contains "#" s = false.
Proof.
  intros H.
  assert (forall c, contains c unreserved = false -> contains c s = false) as Hout
    by (intros c; now apply all_in_contains).
  unfold plain. rewrite !Hout by reflexivity. now repeat split.
Qed.

Lemma simple_field_spec (name value : string) :
  simple_field (name, value) = true ->
  all_in unreserved name = true /\ all_in unreserved value = true /\
  value <> EmptyString.
Proof.
  unfold simple_field. cbn [fst snd]. intros H.
  apply andb_prop in H as [H Hne]. apply andb_prop in H as [Hname Hvalue].
  repeat split; try assumption.
  intros ->. discriminate.
Qed.

Lemma parse_qsl_query_of (fields : list (string * string)) :
  forallb simple_field fields = true -> parse_qsl (query_of fields) = fields.
Proof.
  induction fields as [|[name value] rest IH]; [reflexivity|].
  cbn [forallb]. intros H. apply andb_prop in H as [Hfield Hrest].
  apply simple_field_spec in Hfield as (Hname & Hvalue & Hne).
  apply unreserved_plain in Hname as (Hname & Heq & Hamp & _).
  apply unreserved_plain in Hvalue as (Hvalue & _).
  destruct rest as [|field rest].
  - now apply parse_qsl_last.
  - change (query_of ((name, value) :: field :: rest))
      with (name +:+ String "=" (value +:+ String "&" (query_of (field :: rest)))).
    rewrite parse_qsl_cons by assumption. now rewrite (IH Hrest).
Qed.

Lemma query_of_no_fragment (fields : list (string * string)) :
  forallb simple_field fields = true -> contains "#" (query_of fields) = false.
Proof.
  induction fields as [|[name value] rest IH]; [reflexivity|].
  cbn [forallb]. intros H. apply andb_prop in H as [Hfield Hrest].
  apply simple_field_spec in Hfield as (Hname & Hvalue & _).
  apply unreserved_plain in Hname as (_ & _ & _ & Hname).
  apply unreserved_plain in Hvalue as (_ & _ & _ & Hvalue).
  destruct rest as [|field rest].
  - cbn [query_of]. rewrite contains_append, Hname. cbn [orb].
    apply (contains_tail_false "#" "="); [reflexivity | exact Hvalue].
  - change (query_of ((name, value) :: field :: rest))
      with (name +:+ String "=" (value +:+ String "&" (query_of (field :: rest)))).
    rewrite contains_append, Hname. cbn [orb].
    apply (contains_tail_false "#" "="); [reflexivity|].
    rewrite contains_append, Hvalue. cbn [orb].
    apply (contains_tail_false "#" "&"); [reflexivity | exact (IH Hrest)].
Qed.

(** C9 (amended).  A [wait_for_call] that completes, that is whose
    loop ends and that finds the server not cancelled, with the
    captured path [base?name=value&...] in which [base] has no ['?'],
    ['#'], ['['] or [']'] and the names and the values are of
    unreserved characters, the values not empty, returns a map that
    gives to every name the sequence of the values the query pairs it
    with, in their order and with their repetitions, and no entry to
    another name; so [code=ABC&state=XYZ] gives [["ABC"]] to ["code"]
    and [["XYZ"]] to ["state"].  The values are sequences of strings,
    never a string.  The last part shows the rest of the reading on
    one path: a ['+'] is read as a space and a field without value
    gives nothing. *)
Theorem wait_for_call_parameters
    (sched : list Event) (late : list Op) (s0 exited : OAuthServer)
    (base : string) (fields : list (string * string)) :
  wait_loop sched s0 = (true, exited) ->
  _cancelled (run_ops late exited) = false ->
  path (run_ops late exited) = Some (base +:+ String "?" (query_of fields)) ->
  contains "?" base = false -> contains "#" base = false ->
  contains "[" base = false -> contains "]" base = false ->
  forallb simple_field fields = true ->
  (exists m : gmap string (list string),
     fst (wait_for_call sched late s0) = Returned (Some m) /\
     forall name, m !! name = values_of name fields) /\
  (exists m : gmap string (list string),
     fst (wait_for_call [Request "/monzo_callback?tag=a+b&tag=&flag&tag=c"] []
            (OAuthServer_init REDIRECT_PORT)) = Returned (Some m) /\
     m !! "tag" = Some ["a b"; "c"] /\ m !! "flag" = None).
Proof.
  intros Hloop Hcancel Hpath Hq Hh Hl Hr Hfields. split.
  - pose proof (wait_for_call_never_neither sched late s0 exited Hloop) as Hflag.
    unfold loop_breaks in Hflag. rewrite Hcancel in Hflag.
    exists (parse_qs (query_of fields)). split.
    + unfold wait_for_call. rewrite Hloop. cbn [fst]. unfold wait_epilogue.
      rewrite Hcancel, Hpath.
      rewrite urlparse_query_append
        by (try assumption; now apply query_of_no_fragment).
      destruct (_completed (run_ops late exited)); [reflexivity | discriminate].
    + intros name. now rewrite parse_qs_lookup, parse_qsl_query_of.
  - exists (parse_qs "tag=a+b&tag=&flag&tag=c"). split; [reflexivity|].
    rewrite !parse_qs_lookup. split; reflexivity.
Qed.

(** ** Colours *)

(** X16.  [Color] takes a text of six characters, or of seven that
    start with ['#'], and nothing else; the [hex_code] it keeps has
    seven characters and starts with ['#'], is the text given or that
    text after a ['#'], and is taken again as it is. *)
Theorem Color_init_normalises (text : string) :
  match Color_init text with
  | Ok color =>
      String.length (hex_code color) = 7%nat /\
      startswith_hash (hex_code color) = true /\
      (hex_code color = text \/ hex_code color = String "#" text) /\
      Color_init (hex_code color) = Ok color
  | Raise e => e = AttributeError "Hex code was invalid"
  end /\
  ((exists color, Color_init text = Ok color) <->
   (startswith_hash text = true /\ String.length text = 7%nat) \/
   (startswith_hash text = false /\ String.length text = 6%nat)).
Proof.
  unfold Color_init. destruct (startswith_hash text) eqn:Hhash; cbn [negb].
  - destruct (Nat.eqb_spec (String.length text) 7) as [Hlen|Hlen]; cbn [negb].
    + split.
      * cbn [hex_code]. rewrite Hhash. cbn [negb]. rewrite Hlen. cbn. auto.
      * split; [auto | eauto].
    + split; [reflexivity|]. split.
      * intros [color H]. discriminate.
      * intros [[_ H]|[H _]]; [contradiction | discriminate].
  - cbn [String.length].
    destruct (Nat.eqb_spec (S (String.length text)) 7) as [Hlen|Hlen]; cbn [negb].
    + split.
      * cbn [hex_code startswith_hash String.length]. rewrite Ascii.eqb_refl.
        cbn [negb String.length]. rewrite Hlen. cbn [Nat.eqb negb]. auto.
      * split; [intros _; right; split; [reflexivity | lia] | eauto].
    + split; [reflexivity|]. split.
      * intros [color H]. discriminate.
      * intros [[H _]|[_ H]]; [discriminate | lia].
Qed.

(** ** Webhooks *)

Lemma for_each_ok {A B : Type} (f : A -> PyResult B) (l : list A) (results : list B) :
  for_each f l = Ok results <-> Forall2 (fun x y => f x = Ok y) l results.
Proof.
  revert results. induction l as [|x l IH]; intros results; cbn [for_each].
  - split.
    + intros [= <-]. constructor.
    + intros H. now inversion H.
  - unfold bind. destruct (f x) as [y|e] eqn:Hx.
    + destruct (for_each f l) as [ys|e] eqn:Hl.
      * split.
        -- intros [= <-]. constructor; [exact Hx | now apply IH].
        -- intros H. inversion H as [|? y' ? ys' Hy Hys]; subst.
           apply IH in Hys. congruence.
      * split; [discriminate|].
        intros H. inversion H as [|? y' ? ys' Hy Hys]; subst.
        apply IH in Hys. discriminate.
    + split; [discriminate|].
      intros H. inversion H; subst. congruence.
Qed.

(** X17.  For a response whose ["webhooks"] member is a list,
    [Webhook.from_json] gives all or nothing: it returns a list exactly
    when every element has ["id"], ["account_id"] and ["url"], and the
    list then has one webhook per element, in the order of the
    elements; the members ["webhook"] and the rest of the response are
    not looked at. *)
Theorem Webhook_from_json_plural (items : list (string * Json))
    (elements : list Json) (results : list Webhook) :
  dict_lookup "webhooks" items = Some (JList elements) ->
  Webhook_from_json (JDict items) = Ok results <->
  Forall2 (fun element webhook => Webhook_of element = Ok webhook) elements results.
Proof.
  intros H. unfold Webhook_from_json, get_method, getitem, bind.
  rewrite H. cbn [default is_not_None iterate]. apply for_each_ok.
Qed.

(** What [Webhook.from_json] reads a single webhook from: the member
    ["webhook"] when there is one that is not null, the response itself
    otherwise. *)
Lemma Webhook_from_json_singular (items : list (string * Json)) :
  default JNull (dict_lookup "webhooks" items) = JNull ->
  Webhook_from_json (JDict items) =
  (webhook <- Webhook_of
                (if is_not_None (default JNull (dict_lookup "webhook" items))
                 then default JNull (dict_lookup "webhook" items)
                 else JDict items) ;;
   Ok [webhook]).
Proof.
  intros H. unfold Webhook_from_json. cbn [get_method bind]. rewrite H.
  cbn [is_not_None bind].
  destruct (dict_lookup "webhook" items) as [w|] eqn:E; cbn [default].
  - destruct w; unfold id; cbn [is_not_None bind getitem]; rewrite ?E;
      cbn [bind iterate for_each]; try reflexivity;
      now destruct (Webhook_of _).
  - unfold id. cbn [is_not_None bind iterate for_each].
    now destruct (Webhook_of _).
Qed.

Lemma handle_response_ok (response : HttpResponse) :
  (200 <= status_code response < 300)%Z ->
  _handle_response response = Ok response.
Proof.
  intros H. unfold _handle_response.
  destruct (Z.ltb_spec (status_code response) 200); [lia|].
  rewrite Z.geb_leb. now destruct (Z.leb_spec 300 (status_code response)); [lia|].
Qed.

Lemma handle_response_error (response : HttpResponse) :
  ~ (200 <= status_code response < 300)%Z ->
  _handle_response response =
  Raise (MonzoError (dedicated_error_class (status_code response))
           ("Error fetching request: (" +:+ pretty (status_code response)
            +:+ "): " +:+ text response)).
Proof.
  intros H. unfold _handle_response. rewrite error_map_lookup.
  destruct (Z.ltb_spec (status_code response) 200); [reflexivity|].
  rewrite Z.geb_leb. destruct (Z.leb_spec 300 (status_code response));
    [reflexivity | lia].
Qed.

(** The request that [register_webhook] sends. *)
Lemma register_webhook_request (self : MonzoClient) (account_id url : string) :
  {| method := POST; url := "https://api.monzo.com/" +:+ "webhooks";
     data := [("account_id", FStr account_id); ("url", FStr url)];
     headers := [("Authorization", bearer self)] |}
  = webhook_request self account_id url.
Proof. reflexivity. Qed.

(** X18.  [register_webhook] on a response with a status in [200, 300)
    whose body has no ["webhooks"] member: the webhook returned is read
    from the member ["webhook"] when there is one, and from the body
    itself otherwise; a missing ["id"], ["account_id"] or ["url"]
    raises the [KeyError]. *)
Theorem register_webhook_single (self : MonzoClient) (account_id url : string)
    (log : list Effect) (items : list (string * Json)) :
  let response := network log (webhook_request self account_id url) in
  (200 <= status_code response < 300)%Z ->
  response_json response = Ok (JDict items) ->
  dict_lookup "webhooks" items = None ->
  register_webhook self account_id url log =
  (Webhook_of (default (JDict items)
                 (match dict_lookup "webhook" items with
                  | Some JNull => None
                  | found => found
                  end)),
   log ++ [Http (webhook_request self account_id url)]).
Proof.
  intros response Hstatus Hjson Hnone.
  unfold register_webhook, MonzoClient_post, and_then.
  rewrite register_webhook_request. fold response.
  rewrite handle_response_ok by exact Hstatus.
  f_equal. unfold bind at 1. rewrite Hjson.
  rewrite Webhook_from_json_singular by now rewrite Hnone.
  destruct (dict_lookup "webhook" items) as [[]|]; cbn [default is_not_None];
    unfold bind; now destruct (Webhook_of _).
Qed.

(** X19.  [register_webhook] on a response with a status in [200, 300)
    whose ["webhooks"] member is an empty list raises [IndexError]:
    the request has been sent and accepted, and the caller gets no
    webhook. *)
Theorem register_webhook_empty (self : MonzoClient) (account_id url : string)
    (log : list Effect) (items : list (string * Json)) :
  let response := network log (webhook_request self account_id url) in
  (200 <= status_code response < 300)%Z ->
  response_json response = Ok (JDict items) ->
  dict_lookup "webhooks" items = Some (JList []) ->
  register_webhook self account_id url log =
  (Raise (OtherError "IndexError"),
   log ++ [Http (webhook_request self account_id url)]).
Proof.
  intros response Hstatus Hjson Hempty.
  unfold register_webhook, MonzoClient_post, and_then.
  rewrite register_webhook_request. fold response.
  rewrite handle_response_ok by exact Hstatus.
  f_equal. unfold bind at 1. rewrite Hjson.
  unfold Webhook_from_json, get_method, getitem, bind. now rewrite Hempty.
Qed.

(** ** The other requests *)

Lemma and_then_rejected {A : Type} (log : list Effect) (request : HttpRequest)
    (decode : HttpResponse -> PyResult A) :
  ~ (200 <= status_code (network log request) < 300)%Z ->
  rejected log
    (and_then (_handle_response (network log request), log ++ [Http request]) decode).
Proof.
  intros H. exists request. unfold and_then.
  now rewrite handle_response_error by exact H.
Qed.

(** X20.  No method decodes the body of a response that
    [_handle_response] refuses: when the network answers outside
    [200, 300), each of [whoami], [balance], [list_webhooks],
    [register_webhook], [delete_webhook], [register_attachment],
    [unregister_attachment], [create_feed_item], [deposit_into_pot] and
    [withdraw_from_pot] sends its one request and raises the error of
    the status. *)
Theorem api_methods_rejected (cls : MonzoClientClass) (self : MonzoClient)
    (log : list Effect) (a b c : string) (amount : Z) (dedupe_id body url : option string)
    (background_color body_color title_color : option Color) :
  (forall request, ~ (200 <= status_code (network log request) < 300)%Z) ->
  rejected log (whoami self log) /\
  rejected log (balance self a log) /\
  rejected log (list_webhooks self a log) /\
  rejected log (register_webhook self a b log) /\
  rejected log (delete_webhook self a log) /\
  rejected log (register_attachment self a b c log) /\
  rejected log (unregister_attachment self a log) /\
  rejected log (create_feed_item self a b c body background_color body_color
                  title_color url log) /\
  rejected log (deposit_into_pot cls self a b amount dedupe_id log) /\
  rejected log (withdraw_from_pot cls self a b amount dedupe_id log).
Proof.
  intros H.
  repeat split; apply and_then_rejected, H.
Qed.

Lemma and_then_effects {A : Type} (sent : PyResult HttpResponse * list Effect)
    (decode : HttpResponse -> PyResult A) :
  snd (and_then sent decode) = snd sent.
Proof. now destruct sent as [[response|e] log']. Qed.

(** X21.  A client that has not authenticated is not kept from calling
    the API: with the client as [__init__] leaves it, each of these
    methods sends its request, with the header [Authorization: Bearer
    None]. *)
Theorem api_methods_unauthenticated (cls : MonzoClientClass)
    (cid oid sec : string) (g : Rng)
    (log : list Effect) (a b c : string) (amount : Z) (dedupe_id body url : option string)
    (background_color body_color title_color : option Color) :
  let self := fst (MonzoClient_init cid oid sec g) in
  Forall (fun effects => one_request log effects "Bearer None")
    [snd (whoami self log);
     snd (balance self a log);
     snd (list_webhooks self a log);
     snd (register_webhook self a b log);
     snd (delete_webhook self a log);
     snd (register_attachment self a b c log);
     snd (unregister_attachment self a log);
     snd (create_feed_item self a b c body background_color body_color
            title_color url log);
     snd (deposit_into_pot cls self a b amount dedupe_id log);
     snd (withdraw_from_pot cls self a b amount dedupe_id log)].
Proof.
  intros self.
  assert (bearer self = "Bearer None") as Hbearer.
  { subst self. unfold MonzoClient_init. now destruct (random_string 20 g). }
  repeat constructor;
    try (unfold whoami, balance, list_webhooks, register_webhook, delete_webhook,
           register_attachment, unregister_attachment, create_feed_item;
         rewrite and_then_effects; eexists; split; [reflexivity|];
         cbn [headers]; now rewrite Hbearer).
  - unfold deposit_into_pot.
    match goal with |- context [put ?s ?p ?d ?e] =>
      pose proof (put_effects s p d e) as H; destruct (put s p d e) as [[r|x] log']
    end; cbn [snd] in *; subst log'; eexists; (split; [reflexivity|]);
      cbn [headers]; now rewrite Hbearer.
  - unfold withdraw_from_pot.
    match goal with |- context [put ?s ?p ?d ?e] =>
      pose proof (put_effects s p d e) as H; destruct (put s p d e) as [[r|x] log']
    end; cbn [snd] in *; subst log'; eexists; (split; [reflexivity|]);
      cbn [headers]; now rewrite Hbearer.
Qed.

(** X22.  [create_feed_item] posts to [feed] a body whose keys are all
    different, in which [type] is [basic], the account, the title and
    the image are the ones given, and each of the body, the three
    colours and the url is present exactly when it was given, a colour
    as its [hex_code]. *)
Theorem create_feed_item_body (self : MonzoClient) (account_id title image_url : string)
    (body : option string) (background_color body_color title_color : option Color)
    (link : option string) (log : list Effect) :
  exists request,
    snd (create_feed_item self account_id title image_url body background_color
           body_color title_color link log) = log ++ [Http request] /\
    method request = POST /\
    url request = "https://api.monzo.com/feed" /\
    NoDup (fst <$> data request) /\
    field "type" request = Some (FStr "basic") /\
    field "account_id" request = Some (FStr account_id) /\
    field "params[title]" request = Some (FStr title) /\
    field "params[image_url]" request = Some (FStr image_url) /\
    field "params[body]" request = FStr <$> body /\
    field "params[background_color]" request = FStr <$> (hex_code <$> background_color) /\
    field "params[body_color]" request = FStr <$> (hex_code <$> body_color) /\
    field "params[title_color]" request = FStr <$> (hex_code <$> title_color) /\
    field "url" request = FStr <$> link.
Proof.
  unfold create_feed_item. rewrite and_then_effects.
  eexists. split; [reflexivity|].
  destruct body, background_color, body_color, title_color, link;
    cbn [MonzoClient_post method data optional_entry app];
    (repeat split; try reflexivity);
    apply (bool_decide_unpack _); vm_compute; exact I.
Qed.

End Libmonzo.

(** * Concrete runs *)

(** C1, as stated, fails: after a completion, [stop] is not a no-op; it
    sets [_cancelled], so that both flags are true. *)
Lemma stop_after_completion_sets_cancelled :
  let s := handler_callback "/monzo_callback?code=ABC&state=XYZ"
             (OAuthServer_init 36453) in
  _completed s = true /\ _cancelled s = false /\
  _completed (stop s) = true /\ _cancelled (stop s) = true /\
  stop s <> s.
Proof. repeat split. discriminate. Qed.

(** C2, as stated, fails: the path kept after two invocations of
    [handler_callback] is that of the second one. *)
Lemma second_callback_replaces_path :
  let first := handler_callback "/monzo_callback?code=FIRST&state=XYZ"
                 (OAuthServer_init 36453) in
  let second := handler_callback "/monzo_callback?code=SECOND&state=XYZ" first in
  path first = Some "/monzo_callback?code=FIRST&state=XYZ" /\
  path second = Some "/monzo_callback?code=SECOND&state=XYZ" /\
  second <> first.
Proof. repeat split. discriminate. Qed.

(** C4, as stated, fails: the request target [http://[] is a path as
    any other for [handler_callback]; with it the server is completed
    and not cancelled, and [wait_for_call] returns no parameters: the
    [ValueError] of [urlparse] goes to the caller. *)
Lemma wait_for_call_raises_on_open_bracket :
  let run := wait_for_call (fun t => t) [Request "http://["] []
               (OAuthServer_init 36453) in
  _cancelled (snd run) = false /\ _completed (snd run) = true /\
  path (snd run) = Some "http://[" /\
  fst run = Raised (ValueError "Invalid IPv6 URL").
Proof. repeat split. Qed.

(** C6, as stated, fails: with an entropy source whose every draw is 8
    the state token is twenty times the capital letter [I], one of the
    characters listed as confusable. *)
Lemma state_token_of_capital_I :
  let token := state_token
                 (fst (MonzoClient_init "id" "owner" "secret"
                         (mkRng (fun _ => 8%nat) 0))) in
  token = "IIIIIIIIIIIIIIIIIIII" /\
  Exists (fun c => In c confusable) (list_ascii_of_string token).
Proof.
  split; [reflexivity|].
  apply Exists_cons_hd. cbn. tauto.
Qed.

(** C9, as stated, fails: the path [//[?code=ABC&state=XYZ] has the
    query string [?code=ABC&state=XYZ], and the [wait_for_call] that
    finds it captured, the server completed and not cancelled, returns
    no map: [urlparse] raises [ValueError] for the bracket. *)
Lemma wait_for_call_query_after_open_bracket :
  let p := "//[" +:+ "?code=ABC&state=XYZ" in
  let run := wait_for_call (fun t => t) [Request p] [] (OAuthServer_init 36453) in
  _cancelled (snd run) = false /\ _completed (snd run) = true /\
  path (snd run) = Some "//[?code=ABC&state=XYZ" /\
  fst run = Raised (ValueError "Invalid IPv6 URL").
Proof. repeat split. Qed.

(** C9 at the path [/monzo_callback?code=ABC&state=XYZ], served after
    one idle poll. *)
Lemma wait_for_call_parameters_witness :
  let unquote_escapes := fun s : string => s in
  let base := "/monzo_callback" in
  let fields := [("code", "ABC"); ("state", "XYZ")] in
  let p := "/monzo_callback?code=ABC&state=XYZ" in
  let sched := [Idle; Request p] in
  let s0 := OAuthServer_init 36453 in
  let exited := handler_callback p s0 in
  wait_loop sched s0 = (true, exited) /\
  _cancelled (run_ops [] exited) = false /\
  path (run_ops [] exited) = Some (base +:+ String "?" (query_of fields)) /\
  contains "?" base = false /\ contains "#" base = false /\
  contains "[" base = false /\ contains "]" base = false /\
  forallb simple_field fields = true /\
  exists m : gmap string (list string),
    fst (wait_for_call unquote_escapes sched [] s0) = Returned (Some m) /\
    (forall name, m !! name = values_of name fields) /\
    m !! "code" = Some ["ABC"] /\ m !! "state" = Some ["XYZ"].
Proof.
  intros unquote_escapes base fields p sched s0 exited.
  repeat (split; [reflexivity|]).
  destruct (wait_for_call_parameters unquote_escapes sched [] s0 exited base fields)
    as [(m & Hreturned & Hvalues) _]; try reflexivity.
  exists m. split; [exact Hreturned|]. split; [exact Hvalues|].
  rewrite !Hvalues. split; reflexivity.
Defined.

(** C5 at a callback whose [state] is not the token of the client. *)
Lemma authenticate_rejects_bad_state_witness :
  let unquote_escapes := fun s : string => s in
  let network := fun (_ : list Effect) (_ : HttpRequest) =>
                   {| status_code := 200; text := "{}" |} in
  let json_access_token := fun _ : HttpResponse => Ok "tok_live_1" in
  let self := {| client_id := "id"; owner_id := "owner"; client_secret := "secret";
                 access_token := None; account_id := None;
                 state_token := "abc12XYZ" |} in
  let sched := [Request "/monzo_callback?code=AUTHCODE1&state=wrong"] in
  let parameters := parse_qs unquote_escapes "code=AUTHCODE1&state=wrong" in
  fst (wait_for_call unquote_escapes sched [] (OAuthServer_init REDIRECT_PORT))
  = Returned (Some parameters) /\
  is_Some (parameters !! "code") /\
  (exists e, authenticate unquote_escapes network json_access_token self sched [] []
             = (Raised e, self, [] ++ [OpenBrowser (authorization_url self)])) /\
  access_token (snd (fst (authenticate unquote_escapes network json_access_token
                            self sched [] []))) = access_token self /\
  requests_of (snd (authenticate unquote_escapes network json_access_token
                      self sched [] [])) = requests_of [].
Proof.
  intros unquote_escapes network json_access_token self sched parameters.
  split; [reflexivity|]. split; [exists ["AUTHCODE1"]; reflexivity|].
  apply (authenticate_rejects_bad_state unquote_escapes network json_access_token
           self sched [] [] parameters).
  - reflexivity.
  - exists ["AUTHCODE1"]. reflexivity.
  - right. right. exists "wrong". split; [reflexivity | discriminate].
Defined.

(** C10 at a callback that has a wrong [state] and no [code]. *)
Lemma authenticate_missing_code_witness :
  let unquote_escapes := fun s : string => s in
  let network := fun (_ : list Effect) (_ : HttpRequest) =>
                   {| status_code := 200; text := "{}" |} in
  let json_access_token := fun _ : HttpResponse => Ok "tok_live_1" in
  let self := {| client_id := "id"; owner_id := "owner"; client_secret := "secret";
                 access_token := None; account_id := None;
                 state_token := "abc12XYZ" |} in
  let sched := [Request "/monzo_callback?state=wrong"] in
  let parameters := parse_qs unquote_escapes "state=wrong" in
  fst (wait_for_call unquote_escapes sched [] (OAuthServer_init REDIRECT_PORT))
  = Returned (Some parameters) /\
  parameters !! "code" = None /\
  authenticate unquote_escapes network json_access_token self sched [] []
  = (Raised (KeyError "code"), self, [] ++ [OpenBrowser (authorization_url self)]).
Proof.
  intros unquote_escapes network json_access_token self sched parameters.
  split; [reflexivity|]. split; [reflexivity|].
  apply (authenticate_missing_code unquote_escapes network json_access_token
           self sched [] [] parameters); reflexivity.
Defined.

(** * Concrete runs of the further properties *)

(** X1 at a fresh server and three timeouts. *)
Lemma wait_for_call_idle_blocks_witness :
  let s := OAuthServer_init 36453 in
  loop_breaks s = false /\
  wait_for_call (fun t => t) (repeat Idle 3) [] s = (Blocked, s).
Proof.
  intros s. split; [reflexivity|].
  apply (wait_for_call_idle_blocks (fun t => t) 3 [] s). reflexivity.
Defined.

(** X2 at two timeouts, the callback, and a further timeout. *)
Lemma wait_for_call_first_request_witness :
  let s := OAuthServer_init 36453 in
  let p := "/monzo_callback?code=ABC&state=XYZ" in
  loop_breaks s = false /\
  wait_for_call (fun t => t) (repeat Idle 2 ++ Request p :: [Idle]) [] s
  = (Returned (Some (parse_qs (fun t => t) "code=ABC&state=XYZ")),
     handler_callback p s).
Proof.
  intros s p. split; [reflexivity|].
  rewrite (wait_for_call_first_request (fun t => t) 2 p [Idle] s) by reflexivity.
  reflexivity.
Defined.

(** X3 at a callback followed by a [stop] before the lock is taken. *)
Lemma wait_for_call_late_stop_witness :
  let s0 := OAuthServer_init 36453 in
  let p := "/monzo_callback?code=ABC&state=XYZ" in
  wait_loop [Request p] s0 = (true, handler_callback p s0) /\
  In CallStop [CallStop] /\
  fst (wait_for_call (fun t => t) [Request p] [CallStop] s0) = Returned None.
Proof.
  intros s0 p. split; [reflexivity|]. split; [now left|].
  apply (wait_for_call_late_stop (fun t => t) [Request p] [CallStop] s0
           (handler_callback p s0)); [reflexivity | now left].
Defined.

(** X4 at a served callback and a second call with one timeout. *)
Lemma wait_for_call_again_witness :
  let s0 := OAuthServer_init 36453 in
  let p := "/monzo_callback?code=ABC&state=XYZ" in
  fst (wait_for_call (fun t => t) [Request p] [] s0) <> Blocked /\
  wait_for_call (fun t => t) [Idle] []
    (snd (wait_for_call (fun t => t) [Request p] [] s0))
  = wait_for_call (fun t => t) [Request p] [] s0.
Proof.
  intros s0 p. split; [discriminate|].
  apply (wait_for_call_again (fun t => t) [Request p] [Idle] [] s0).
  discriminate.
Defined.

(** X5 at a timeout followed by a callback. *)
Lemma wait_for_call_request_returns_witness :
  let p := "/monzo_callback?code=ABC&state=XYZ" in
  In (Request p) [Idle; Request p] /\
  fst (wait_for_call (fun t => t) [Idle; Request p] [] (OAuthServer_init 36453))
  <> Blocked.
Proof.
  intros p. split; [right; now left|].
  apply (wait_for_call_request_returns (fun t => t) [Idle; Request p] []
           (OAuthServer_init 36453) p).
  right. now left.
Defined.

(** X6 at a [stop] during the second poll, which then times out. *)
Lemma wait_for_call_stop_during_poll_witness :
  let s := OAuthServer_init 36453 in
  loop_breaks s = false /\
  (forall o, Idle <> Other o) /\
  fst (wait_for_call (fun t => t)
         (repeat Idle 1 ++ Other CallStop
            :: [Other (CallHandler "/monzo_callback?code=ABC&state=XYZ")]
            ++ Idle :: [])
         [] s) = Returned None.
Proof.
  intros s. split; [reflexivity|]. split; [discriminate|].
  apply (wait_for_call_stop_during_poll (fun t => t) 1
           [Other (CallHandler "/monzo_callback?code=ABC&state=XYZ")] []
           Idle [] s); [reflexivity | discriminate].
Defined.

(** X9 at the string [ABC234]. *)
Lemma random_string_any_witness :
  Forall (fun c => In c (list_ascii_of_string _SECRETS_ALPHABET))
         (list_ascii_of_string "ABC234") /\
  exists g, fst (random_string (Z.of_nat (String.length "ABC234")) g) = "ABC234".
Proof.
  assert (Forall (fun c => In c (list_ascii_of_string _SECRETS_ALPHABET))
                 (list_ascii_of_string "ABC234")) as H.
  { eapply Forall_impl; [|intros c Hc; apply list_elem_of_In; exact Hc].
    apply (bool_decide_unpack _). vm_compute. exact I. }
  split; [exact H|]. apply (random_string_any "ABC234"). exact H.
Defined.


(** X14 at a client identifier of letters, digits and an underscore. *)
Lemma authorization_url_round_trip_witness :
  let g := mkRng (fun k => k) 0 in
  let cid := "oauth2client_0000" in
  let self := fst (MonzoClient_init cid "owner" "secret" g) in
  plain cid = true /\ cid <> EmptyString /\
  exists query,
    urlparse_query (authorization_url self) = Ok query /\
    parse_qsl (fun t => t) query
    = [("client_id", cid);
       ("redirect_uri", "http://localhost:36453/monzo_callback");
       ("response_type", "code");
       ("state", state_token self)].
Proof.
  intros g cid self. split; [reflexivity|]. split; [discriminate|].
  apply (authorization_url_round_trip (fun t => t) cid "owner" "secret" g);
    [reflexivity | discriminate].
Defined.

(** X15 at the state token [abc12XYZ], the code [AUTHCODE1] and a
    response that yields the access token [tok_live_1]. *)
Lemma authenticate_end_to_end_witness :
  let network := fun (_ : list Effect) (_ : HttpRequest) =>
                   {| status_code := 200; text := "{}" |} in
  let json_access_token := fun _ : HttpResponse => Ok "tok_live_1" in
  let self := {| client_id := "id"; owner_id := "owner"; client_secret := "secret";
                 access_token := None; account_id := None;
                 state_token := "abc12XYZ" |} in
  let log' := [] ++ [OpenBrowser (authorization_url self)] in
  plain "AUTHCODE1" = true /\ "AUTHCODE1" <> EmptyString /\
  plain (state_token self) = true /\ state_token self <> EmptyString /\
  authenticate (fun t => t) network json_access_token self
    (repeat Idle 0 ++
     Request ("/monzo_callback?code=" +:+ "AUTHCODE1" +:+ "&state=" +:+ state_token self)
       :: []) [] []
  = (Returned true, with_access_token "tok_live_1" self,
     log' ++ [Http (token_request self ["AUTHCODE1"])]).
Proof.
  intros network json_access_token self log'.
  split; [reflexivity|]. split; [discriminate|].
  split; [reflexivity|]. split; [discriminate|].
  apply (authenticate_end_to_end (fun t => t) network json_access_token self
           "AUTHCODE1" 0 [] []);
    [reflexivity | discriminate | reflexivity | discriminate].
Defined.

(** X17 at a response that lists one webhook. *)
Lemma Webhook_from_json_plural_witness :
  let element := JDict [("id", JStr "webhook_1"); ("account_id", JStr "acc_1");
                        ("url", JStr "https://example.org/hook")] in
  let items := [("webhooks", JList [element])] in
  let results := [mkWebhook (JStr "webhook_1") (JStr "acc_1")
                            (JStr "https://example.org/hook")] in
  dict_lookup "webhooks" items = Some (JList [element]) /\
  (Webhook_from_json (JDict items) = Ok results <->
   Forall2 (fun e webhook => Webhook_of e = Ok webhook) [element] results).
Proof.
  intros element items results. split; [reflexivity|].
  apply (Webhook_from_json_plural items [element] results). reflexivity.
Defined.

(** X18 at a response that holds the webhook under ["webhook"]. *)
Lemma register_webhook_single_witness :
  let webhook := JDict [("id", JStr "webhook_1"); ("account_id", JStr "acc_1");
                        ("url", JStr "https://example.org/hook")] in
  let items := [("webhook", webhook)] in
  let network := fun (_ : list Effect) (_ : HttpRequest) =>
                   {| status_code := 200; text := "{}" |} in
  let response_json := fun _ : HttpResponse => Ok (JDict items) in
  let self := {| client_id := "id"; owner_id := "owner"; client_secret := "secret";
                 access_token := Some "tok_live_1"; account_id := None;
                 state_token := "abc12XYZ" |} in
  let request := webhook_request self "acc_1" "https://example.org/hook" in
  (200 <= status_code (network [] request) < 300)%Z /\
  response_json (network [] request) = Ok (JDict items) /\
  dict_lookup "webhooks" items = None /\
  register_webhook network response_json self "acc_1" "https://example.org/hook" []
  = (Webhook_of webhook, [] ++ [Http request]).
Proof.
  intros webhook items network response_json self request.
  split; [cbn; lia|]. split; [reflexivity|]. split; [reflexivity|].
  apply (register_webhook_single network response_json self "acc_1"
           "https://example.org/hook" [] items);
    [cbn; lia | reflexivity | reflexivity].
Defined.

(** X19 at a response with an empty list of webhooks. *)
Lemma register_webhook_empty_witness :
  let items := [("webhooks", JList [])] in
  let network := fun (_ : list Effect) (_ : HttpRequest) =>
                   {| status_code := 200; text := "{}" |} in
  let response_json := fun _ : HttpResponse => Ok (JDict items) in
  let self := {| client_id := "id"; owner_id := "owner"; client_secret := "secret";
                 access_token := Some "tok_live_1"; account_id := None;
                 state_token := "abc12XYZ" |} in
  let request := webhook_request self "acc_1" "https://example.org/hook" in
  (200 <= status_code (network [] request) < 300)%Z /\
  response_json (network [] request) = Ok (JDict items) /\
  dict_lookup "webhooks" items = Some (JList []) /\
  register_webhook network response_json self "acc_1" "https://example.org/hook" []
  = (Raise (OtherError "IndexError"), [] ++ [Http request]).
Proof.
  intros items network response_json self request.
  split; [cbn; lia|]. split; [reflexivity|]. split; [reflexivity|].
  apply (register_webhook_empty network response_json self "acc_1"
           "https://example.org/hook" [] items);
    [cbn; lia | reflexivity | reflexivity].
Defined.

(** X20 at a network that answers 404 to everything. *)
Lemma api_methods_rejected_witness :
  let network := fun (_ : list Effect) (_ : HttpRequest) =>
                   {| status_code := 404; text := "not found" |} in
  let decode := fun _ : HttpResponse => @Ok (list unit) [] in
  let response_json := fun _ : HttpResponse => Ok JNull in
  let cls := {| deposit_into_pot_default := "AAAAAAAAAAAAAAAAAAAA";
                withdraw_from_pot_default := "BBBBBBBBBBBBBBBBBBBB" |} in
  let self := {| client_id := "id"; owner_id := "owner"; client_secret := "secret";
                 access_token := Some "tok_live_1"; account_id := None;
                 state_token := "abc12XYZ" |} in
  (forall request, ~ (200 <= status_code (network [] request) < 300)%Z) /\
  rejected network [] (whoami network response_json self []) /\
  rejected network [] (delete_webhook network self "id_1" []) /\
  rejected network []
    (deposit_into_pot network unit decode cls self "id_1" "acc_1" 100 None []).
Proof.
  intros network decode response_json cls self.
  assert (forall request, ~ (200 <= status_code (network [] request) < 300)%Z) as H.
  { intros request. cbn. lia. }
  split; [exact H|].
  pose proof (api_methods_rejected network unit decode response_json cls self []
                "id_1" "acc_1" "" 100 None None None None None None H)
    as (Hw & _ & _ & _ & Hd & _ & _ & _ & Hp & _).
  split; [exact Hw|]. split; [exact Hd|].
  exact Hp.
Defined.
